(** * MeshConfigurator: serial-port discovery and connection arbitration

    A shallow embedding of [controllers/settings_controller.py]
    (class [SettingsController]) and the properties of its detection,
    scoring, probing, connection and persistence logic.

    Conventions of the embedding.
    - Python values whose type the code does not check are of type [pyval];
      a method call on a value of the wrong type raises, and the
      surrounding [try/except] of the source decides what happens next.
    - Strings are byte strings; [str.lower]/[str.upper] map the ASCII
      letters only.
    - [time.monotonic()] readings are IEEE-754 doubles ([float]), and the
      throttle test is the source's comparison on doubles.
    - Everything outside the class (the operating system, pyserial, the
      device session, the file system, the clock, the scheduling of the
      probe thread) is a field of [World]; the outcome of the n-th open,
      clock reading or file write is read from an oracle indexed by n, so
      that a port may open at one attempt and not at the next; the
      platform and the answer of [comports()] are fixed.
    - The preference file is seen through [json]: its content is what
      [json.load] makes of it, and [json.dump] followed by [json.load]
      gives back the dumped value.
    - [_get_cache_path] fixes the one file the class reads and writes;
      [cache_file] is the state of that file.
    - Logging has no effect on the state and is left out.
    - [fetch_device_model] and [refresh_channels] take the session's
      [snapshot()] and the model's types as parameters.
    - Of [ui/port_picker_dialog.py] the state that the callbacks read and
      write is modelled (list, selected index, status text, result), not
      the widgets. *)

From Stdlib Require Import ZArith String Ascii List Lia PrimFloat Bool.
From Stdlib Require Import Sorting.Sorted Sorting.Permutation.
From stdpp Require Import gmap strings.
Import ListNotations.
Open Scope string_scope.
Open Scope list_scope.

#[local] Set Warnings "-register-all".

(** ** Python values *)

Inductive pyval : Type :=
| PNone
| PBool (b : bool)
| PInt (z : Z)
| PStr (s : string)
| PList (l : list pyval)
| PDict (kv : list (string * pyval)).

(** Truth value of an object ([bool(x)]). *)
Definition truthy (v : pyval) : bool :=
  match v with
  | PNone => false
  | PBool b => b
  | PInt z => negb (z =? 0)%Z
  | PStr s => negb (String.eqb s "")
  | PList l => match l with [] => false | _ => true end
  | PDict kv => match kv with [] => false | _ => true end
  end.

(** [a or b]. *)
Definition py_or (a b : pyval) : pyval := if truthy a then a else b.

(** [d.get(k)] on a dict literal / JSON object: the last binding of a
    repeated key wins, an absent key gives [None]. *)
Fixpoint dict_get (kv : list (string * pyval)) (k : string) : pyval :=
  match kv with
  | [] => PNone
  | (k', v) :: rest =>
      if existsb (fun b => String.eqb (fst b) k) rest then dict_get rest k
      else if String.eqb k' k then v else PNone
  end.

(** [x is not None]. *)
Definition not_none {A} (o : option A) : bool :=
  match o with Some _ => true | None => false end.

Definition opt_str (o : option string) : pyval :=
  match o with Some s => PStr s | None => PNone end.

(** ** Strings *)

Definition lower_ascii (c : ascii) : ascii :=
  let n := nat_of_ascii c in
  if (65 <=? n)%nat && (n <=? 90)%nat then ascii_of_nat (n + 32) else c.

Definition upper_ascii (c : ascii) : ascii :=
  let n := nat_of_ascii c in
  if (97 <=? n)%nat && (n <=? 122)%nat then ascii_of_nat (n - 32) else c.

Fixpoint str_map (f : ascii -> ascii) (s : string) : string :=
  match s with
  | EmptyString => EmptyString
  | String c r => String (f c) (str_map f r)
  end.

Definition lower : string -> string := str_map lower_ascii.
Definition upper : string -> string := str_map upper_ascii.

(** [s.startswith(p)]. *)
Definition startswith (s p : string) : bool := String.prefix p s.

(** [k in s] for strings. *)
Fixpoint contains (k s : string) : bool :=
  String.prefix k s ||
  match s with
  | EmptyString => false
  | String _ r => contains k r
  end.

(** [sep.join(l)]. *)
Fixpoint join (sep : string) (l : list string) : string :=
  match l with
  | [] => ""
  | [x] => x
  | x :: r => x +:+ sep +:+ join sep r
  end.

(** [sep.join(l)] on unchecked values: [TypeError] ([None]) unless every
    item is a [str]. *)
Fixpoint strs_of (l : list pyval) : option (list string) :=
  match l with
  | [] => Some []
  | PStr s :: r => option_map (cons s) (strs_of r)
  | _ :: _ => None
  end.

Definition py_join (sep : string) (l : list pyval) : option string :=
  option_map (join sep) (strs_of l).

(** ** Ports and candidates *)

(** What [list_ports.comports()] yields for one port (pyserial's
    [ListPortInfo]). *)
Record ListPortInfo := {
  device : string;
  p_description : pyval;
  p_manufacturer : pyval;
  p_product : pyval;
  p_serial_number : option string;
  p_vid : option Z;
  p_pid : option Z;
  p_hwid : option string;
  p_interface : pyval
}.

(** One entry of the list built by [detect_candidates]; [verified] is the
    key added to the copies made while probing (absent = [false]). *)
Record candidate := {
  path : string;
  description : string;
  manufacturer : pyval;
  product : pyval;
  serial_number : option string;
  vid : option Z;
  pid : option Z;
  hwid : option string;
  is_bluetooth : bool;
  is_legacy : bool;
  score : Z;
  friendly : string;
  verified : bool
}.

Definition set_score (c : candidate) (s : Z) : candidate :=
  {| path := path c; description := description c;
     manufacturer := manufacturer c; product := product c;
     serial_number := serial_number c; vid := vid c; pid := pid c;
     hwid := hwid c; is_bluetooth := is_bluetooth c;
     is_legacy := is_legacy c; score := s; friendly := friendly c;
     verified := verified c |}.

Definition set_verified (c : candidate) : candidate :=
  {| path := path c; description := description c;
     manufacturer := manufacturer c; product := product c;
     serial_number := serial_number c; vid := vid c; pid := pid c;
     hwid := hwid c; is_bluetooth := is_bluetooth c;
     is_legacy := is_legacy c; score := score c; friendly := friendly c;
     verified := true |}.

(** ** Scoring *)

Definition known_vendors : list Z := [0x10C4; 0x1A86; 0x0403; 0x2E8A]%Z.

Definition keywords : list string :=
  ["usb"; "uart"; "cp210"; "ch340"; "ftdi"; "silicon labs"; "serial"].

Definition vid_known (v : option Z) : bool :=
  match v with
  | Some z => existsb (Z.eqb z) known_vendors
  | None => false
  end.

(** [_score_port]: [None] when the [" ".join(...)] raises because one of
    [desc], [manu], [prod] is a non-empty non-string. *)
Definition _score_port (dev : string) (vid pid : option Z)
    (desc manu prod : pyval) (is_bluetooth is_legacy : bool) : option Z :=
  let score := 0%Z in
  let score := if not_none vid && not_none pid then (score + 50)%Z else score in
  let score := if vid_known vid then (score + 20)%Z else score in
  let score :=
    if startswith dev "/dev/ttyUSB" || startswith dev "/dev/ttyACM"
    then (score + 10)%Z else score in
  let score := if startswith dev "/dev/tty." then (score + 5)%Z else score in
  let score := if is_bluetooth then (score - 30)%Z else score in
  let score := if is_legacy then (score - 15)%Z else score in
  match py_join " " [py_or desc (PStr ""); py_or manu (PStr ""); py_or prod (PStr "")] with
  | None => None
  | Some s =>
      if existsb (fun k => contains k (lower s)) keywords
      then Some (score + 5)%Z else Some score
  end.

(** [any(s and ("bluetooth" in s.lower()) for s in l)]: stops at the first
    hit; [s.lower()] raises ([None]) on a true non-string. *)
Fixpoint any_bluetooth (l : list pyval) : option bool :=
  match l with
  | [] => Some false
  | s :: r =>
      if truthy s then
        match s with
        | PStr t => if contains "bluetooth" (lower t) then Some true else any_bluetooth r
        | _ => None
        end
      else any_bluetooth r
  end.

(** ** Detection *)

(** Outcome of a call that may raise: the exception's message, or the
    returned value. *)
Inductive result (A : Type) : Type :=
| Raise (msg : string)
| Return (a : A).
Arguments Raise {A} msg.
Arguments Return {A} a.

(** [str(v)]; [parse_port] applies it only after [_score_port] has
    returned, when a true [v] is a [str]. *)
Definition str_of (v : pyval) : string :=
  match v with PStr s => s | _ => "" end.

Definition friendly_parts (dev : string) (desc manu prod : pyval)
    (sn : option string) : list string :=
  [if truthy prod then str_of prod
   else if truthy manu then str_of manu else str_of desc]
  ++ ["Port: " +:+ dev]
  ++ (if truthy manu then ["Manufacturer: " +:+ str_of manu] else [])
  ++ (if truthy (opt_str sn) then ["Serial: " +:+ str_of (opt_str sn)] else []).

(** The ASCII line feed, the separator of the friendly text. *)
Definition nl : string := String (ascii_of_nat 10) EmptyString.

(** Body of the [for p in ports] loop of [detect_candidates]: the entry
    appended to [out], or [None] when the body raises and the port is
    skipped. *)
Definition parse_port (os_name : string) (p : ListPortInfo) : option candidate :=
  let dev := device p in
  let desc := py_or (p_description p) (PStr dev) in
  let manu := p_manufacturer p in
  let prod := p_product p in
  let sn := p_serial_number p in
  let iface := p_interface p in
  match any_bluetooth [desc; manu; prod; iface] with
  | None => None
  | Some is_bt =>
      let is_leg := String.eqb os_name "nt" && startswith (upper dev) "COM1" in
      match _score_port dev (p_vid p) (p_pid p) desc manu prod is_bt is_leg with
      | None => None
      | Some sc =>
          match py_join " | " (List.filter truthy [desc; manu; prod]) with
          | None => None
          | Some d =>
              Some {| path := dev; description := d;
                      manufacturer := manu; product := prod;
                      serial_number := sn; vid := p_vid p; pid := p_pid p;
                      hwid := p_hwid p; is_bluetooth := is_bt;
                      is_legacy := is_leg; score := sc;
                      friendly := join nl (friendly_parts dev desc manu prod sn);
                      verified := false |}
          end
      end
  end.

(** macOS nudge: both tests read the path, the second sees the score left
    by the first. *)
Definition adjust_darwin (c : candidate) : candidate :=
  let c := if startswith (path c) "/dev/tty." then set_score c (score c + 5) else c in
  if startswith (path c) "/dev/cu." then set_score c (score c - 2) else c.

(** Windows: Bluetooth is ranked down further. *)
Definition adjust_nt (c : candidate) : candidate :=
  if is_bluetooth c then set_score c (score c - 25) else c.

(** [out.sort(key=score, reverse=True)]: Python's sort is stable, also
    with [reverse=True]; an entry is placed before the first entry whose
    score is not greater than its own. *)
Fixpoint insert_desc (c : candidate) (l : list candidate) : list candidate :=
  match l with
  | [] => [c]
  | d :: r => if (score c <? score d)%Z then d :: insert_desc c r else c :: l
  end.

Definition sort_desc (l : list candidate) : list candidate :=
  foldr insert_desc [] l.

(** The entries of [out] before the final sort, in enumeration order. *)
Definition scored_candidates (os_name platform_system : string)
    (ports : list ListPortInfo) : list candidate :=
  let out := omap (parse_port os_name) ports in
  let out :=
    if String.eqb (lower platform_system) "darwin"
    then map adjust_darwin out else out in
  if String.eqb os_name "nt" then map adjust_nt out else out.

(** ** The environment *)

(** Outcome of [DeviceController(port=...)]: it raises, or a session is
    open whose [identity()] is the given mapping. *)
Inductive open_result : Type :=
| OpenRaises (msg : string)
| Opened (ident : list (string * pyval)).

(** Modelled from the spec: [DeviceController] is not part of the sources
    at hand. The session is the opaque connect/identify/close contract of
    the spec: it is bound to the port it was constructed with, and
    [identity(silent)] returns a mapping (at least [port], optionally
    [hwModel] and [firmwareVersion]). *)
Record DeviceController := {
  dc_port : pyval;
  dc_ident : list (string * pyval)
}.

(** Modelled from the spec: [dc.identity(silent=True)], the mapping the
    session reports; it does not change while the session lives. *)
Definition identity (dc : DeviceController) : list (string * pyval) :=
  dc_ident dc.

(** The preference file as [_load_last_good_port] sees it. *)
Inductive file_state : Type :=
| NoFile                      (* [os.path.isfile] is false *)
| Unreadable                  (* [open(..., "r")] or the read raises *)
| NotJson                     (* [json.load] raises *)
| JsonDoc (v : pyval).        (* [json.load] returns [v] *)

(** How a write of the preference file goes. *)
Inductive write_mode : Type :=
| WriteOk
| WriteRefused                (* [open(..., "w")] raises, file untouched *)
| WriteBroken.                (* truncated by [open], then the dump raises *)

Inductive fs_event : Type :=
| CacheRead
| CacheWrite (port : pyval).

Record World := {
  os_name : string;                       (* [os.name] *)
  platform_system : string;               (* [platform.system()] *)
  comports : result (list ListPortInfo);  (* [list_ports.comports()] *)
  device_open : nat -> pyval -> open_result;
                                          (* n-th [DeviceController(port=p)] *)
  worker_in_time : nat -> float -> bool;  (* the probe thread that makes the
                                             n-th open is done when the join
                                             with the given timeout returns *)
  monotonic : nat -> float;               (* n-th [time.monotonic()] *)
  cache_write : nat -> write_mode;        (* n-th access to the file *)
  opens : list pyval;                     (* ports opened so far, in order *)
  ticks : nat;                            (* clock readings so far *)
  cache_file : file_state;
  fs_log : list fs_event                  (* file accesses so far, in order *)
}.

(** The [last_error] dict: [code], [detail] and optionally [candidates]. *)
Record error := {
  code : string;
  detail : string;
  candidates : option (list candidate)
}.

Record SettingsController := {
  _explicit_port : option string;
  _dc : option DeviceController;
  _last_error : option error;
  _last_good_port : pyval;
  _probe_recent : gmap string float
}.

Record State := { self : SettingsController; world : World }.

(** ** State passing *)

Definition M (A : Type) : Type := State -> A * State.

Definition ret {A} (a : A) : M A := fun s => (a, s).

Definition bind {A B} (m : M A) (k : A -> M B) : M B :=
  fun s => let (a, s') := m s in k a s'.

Notation "'let*' x ':=' m 'in' k" := (bind m (fun x => k))
  (at level 10, x pattern, m at level 100, k at level 200).
Notation "m ;; k" := (bind m (fun _ => k))
  (at level 100, k at level 200, right associativity).

Definition get : M State := fun s => (s, s).

Definition upd_self (f : SettingsController -> SettingsController) : M unit :=
  fun s => (tt, {| self := f (self s); world := world s |}).

Definition upd_world (f : World -> World) : M unit :=
  fun s => (tt, {| self := self s; world := f (world s) |}).

Definition with_dc (d : option DeviceController) (c : SettingsController) :=
  {| _explicit_port := _explicit_port c; _dc := d;
     _last_error := _last_error c; _last_good_port := _last_good_port c;
     _probe_recent := _probe_recent c |}.

Definition with_last_error (e : option error) (c : SettingsController) :=
  {| _explicit_port := _explicit_port c; _dc := _dc c;
     _last_error := e; _last_good_port := _last_good_port c;
     _probe_recent := _probe_recent c |}.

Definition with_probe_recent (m : gmap string float) (c : SettingsController) :=
  {| _explicit_port := _explicit_port c; _dc := _dc c;
     _last_error := _last_error c; _last_good_port := _last_good_port c;
     _probe_recent := m |}.

Definition with_opens (l : list pyval) (w : World) :=
  {| os_name := os_name w; platform_system := platform_system w;
     comports := comports w; device_open := device_open w;
     worker_in_time := worker_in_time w; monotonic := monotonic w;
     cache_write := cache_write w; opens := l; ticks := ticks w;
     cache_file := cache_file w; fs_log := fs_log w |}.

Definition with_ticks (n : nat) (w : World) :=
  {| os_name := os_name w; platform_system := platform_system w;
     comports := comports w; device_open := device_open w;
     worker_in_time := worker_in_time w; monotonic := monotonic w;
     cache_write := cache_write w; opens := opens w; ticks := n;
     cache_file := cache_file w; fs_log := fs_log w |}.

Definition with_file (f : file_state) (l : list fs_event) (w : World) :=
  {| os_name := os_name w; platform_system := platform_system w;
     comports := comports w; device_open := device_open w;
     worker_in_time := worker_in_time w; monotonic := monotonic w;
     cache_write := cache_write w; opens := opens w; ticks := ticks w;
     cache_file := f; fs_log := l |}.

(** ** Calls into the environment *)

(** [DeviceController(port=port)]. *)
Definition open_device (port : pyval) : M open_result :=
  fun s =>
    let w := world s in
    (device_open w (length (opens w)) port,
     {| self := self s; world := with_opens (opens w ++ [port]) w |}).

(** [time.monotonic()]. *)
Definition read_clock : M float :=
  fun s =>
    let w := world s in
    (monotonic w (ticks w),
     {| self := self s; world := with_ticks (S (ticks w)) w |}).

(** ** Persistence helpers *)

(** What the file holds after [json.dump({"last_good_port": port}, f)]. *)
Definition saved_doc (port : pyval) : file_state :=
  JsonDoc (PDict [("last_good_port", port)]).

Definition written (m : write_mode) (port : pyval) (old : file_state) : file_state :=
  match m with
  | WriteOk => saved_doc port
  | WriteRefused => old
  | WriteBroken => NotJson
  end.

(** [_save_last_good_port]: every failure is swallowed. *)
Definition _save_last_good_port (port : pyval) : M unit :=
  upd_world (fun w =>
    with_file (written (cache_write w (length (fs_log w))) port (cache_file w))
              (fs_log w ++ [CacheWrite port]) w).

(** The [try] block of [_load_last_good_port]. *)
Definition load_body (f : file_state) : result pyval :=
  match f with
  | NoFile => Return PNone
  | Unreadable => Raise "OSError"
  | NotJson => Raise "JSONDecodeError"
  | JsonDoc v =>
      match py_or v (PDict []) with
      | PDict kv => Return (dict_get kv "last_good_port")
      | _ => Raise "AttributeError"       (* [data.get] on a non-dict *)
      end
  end.

(** The value [_load_last_good_port] returns: [None] on any exception. *)
Definition loaded (f : file_state) : pyval :=
  match load_body f with
  | Raise _ => PNone
  | Return v => v
  end.

Definition _load_last_good_port : M pyval :=
  fun s =>
    let w := world s in
    (loaded (cache_file w),
     {| self := self s;
        world := with_file (cache_file w) (fs_log w ++ [CacheRead]) w |}).

(** [SettingsController(explicit_port)]. *)
Definition __init__ (explicit_port : option string) (w : World) : State :=
  let s0 :=
    {| self := {| _explicit_port := explicit_port; _dc := None;
                  _last_error := None; _last_good_port := PNone;
                  _probe_recent := ∅ |};
       world := w |} in
  let (lg, s1) := _load_last_good_port s0 in
  {| self := {| _explicit_port := explicit_port; _dc := None;
                _last_error := None; _last_good_port := lg;
                _probe_recent := ∅ |};
     world := world s1 |}.

(** ** Connecting and probing *)

Definition open_failed (msg : string) : error :=
  {| code := "open_failed"; detail := msg; candidates := None |}.

Definition try_connect (port : pyval) : M pyval :=
  let* r := open_device port in
  match r with
  | Opened ident =>
      upd_self (with_dc (Some {| dc_port := port; dc_ident := ident |})) ;;
      _save_last_good_port port ;;
      ret port
  | OpenRaises msg =>
      upd_self (with_last_error (Some (open_failed msg))) ;;
      upd_self (with_dc None) ;;
      ret PNone
  end.

(** The throttle test of [_probe_port]. *)
Definition probed_recently (now last : float) : bool :=
  PrimFloat.ltb (PrimFloat.sub now last) 5%float.

(** What the worker thread leaves in [result["ok"]] at the join deadline. *)
Definition worker_ok (in_time : bool) (r : open_result) : bool :=
  match r with
  | Opened ident =>
      in_time && (truthy (dict_get ident "hwModel")
                  || truthy (dict_get ident "firmwareVersion"))
  | OpenRaises _ => false
  end.

Definition _probe_port (port : string) (timeout_s : float) : M bool :=
  let* s := get in
  let last := default 0%float (_probe_recent (self s) !! port) in
  let* now := read_clock in
  if probed_recently now last then ret false
  else
    let n := length (opens (world s)) in
    let* r := open_device (PStr port) in
    let ok := worker_ok (worker_in_time (world s) n timeout_s) r in
    let* t := read_clock in
    upd_self (fun c => with_probe_recent (<[port := t]> (_probe_recent c)) c) ;;
    ret ok.

(** ** The connect flow *)

(** [p = self.try_connect(port)] under the guard [cond]; without the
    attempt nothing is connected ([None]). *)
Definition attempt (cond : bool) (port : pyval) : M pyval :=
  if cond then try_connect port else ret PNone.

(** [detect_candidates]: re-raises a failure of [comports()]; reads the
    environment only. *)
Definition detect_candidates (w : World) : result (list candidate) :=
  match comports w with
  | Raise msg => Raise msg
  | Return ports =>
      Return (sort_desc (scored_candidates (os_name w) (platform_system w) ports))
  end.

(** The loop over [cands_use[:3]]. *)
Fixpoint probe_candidates (l : list candidate) : M (list candidate) :=
  match l with
  | [] => ret []
  | cand :: r =>
      let* ok := _probe_port (path cand) 4%float in
      let* vs := probe_candidates r in
      ret (if ok then set_verified cand :: vs else vs)
  end.

Definition no_candidates : error :=
  {| code := "no_candidates"; detail := "No serial devices found";
     candidates := None |}.

(** The working subset: the non-Bluetooth entries when there are any. *)
Definition working_subset (cands : list candidate) : list candidate :=
  let non_bt := List.filter (fun c => negb (is_bluetooth c)) cands in
  match non_bt with
  | [] => cands
  | _ :: _ => non_bt
  end.

(** Steps 3 to 6 of [auto_connect_or_candidates]. *)
Definition connect_detected : M (pyval * list candidate) :=
  let* s := get in
  match detect_candidates (world s) with
  | Raise msg =>
      upd_self (with_last_error (Some (open_failed msg))) ;;
      ret (PNone, [])
  | Return [] =>
      upd_self (with_last_error (Some no_candidates)) ;;
      ret (PNone, [])
  | Return ((c0 :: _) as cands) =>
      let cands_use := working_subset cands in
      let top := hd c0 cands_use in
      let* p :=
        attempt ((length cands_use =? 1)%nat && (40 <=? score top)%Z)
                (PStr (path top)) in
      if truthy p then ret (p, [])
      else
        let* verified := probe_candidates (take 3 cands_use) in
        let* p :=
          attempt (length verified =? 1)%nat
                  (PStr (path (hd c0 verified))) in
        if truthy p then ret (p, [])
        else ret (PNone, cands_use)
  end.

Definition auto_connect_or_candidates : M (pyval * list candidate) :=
  upd_self (with_last_error None) ;;
  let* s := get in
  match _dc (self s) with
  | Some dc =>
      let ident := identity dc in
      ret (py_or (dict_get ident "port") (opt_str (_explicit_port (self s))), [])
  | None =>
      (* 1) explicit port *)
      let explicit := opt_str (_explicit_port (self s)) in
      let* p := attempt (truthy explicit) explicit in
      if truthy p then ret (p, [])
      else
        (* 2) last good port *)
        let last_good := _last_good_port (self s) in
        let* p := attempt (truthy last_good) last_good in
        if truthy p then ret (p, [])
        else connect_detected
  end.

Definition multiple_candidates (cands : list candidate) : error :=
  {| code := "multiple_candidates"; detail := "Multiple serial devices found";
     candidates := Some cands |}.

Definition connect_autodetect_if_single : M pyval :=
  let* r := auto_connect_or_candidates in
  let (port, cands) := (r : pyval * list candidate) in
  if truthy port then ret port
  else
    match cands with
    | [] => ret PNone
    | _ :: _ =>
        upd_self (with_last_error (Some (multiple_candidates cands))) ;;
        ret PNone
    end.

Definition last_error : M (option error) :=
  fun s => (_last_error (self s), s).

Definition close : M unit := upd_self (with_dc None).

(** ** Snapshot and refresh *)

Section Snapshot.

(** Modelled from the spec: [models.device_model] and the session's
    [snapshot()] are not part of the sources at hand. A snapshot is a
    structured configuration object with its list of channels; taking it
    may raise, and what it returns may depend on the environment. *)
Variable DeviceModel : Type.
Variable MeshChannel : Type.
Variable MeshChannels : DeviceModel -> list MeshChannel.
Variable snapshot : World -> DeviceController -> result DeviceModel.

(** The message of the [RuntimeError] of a controller without session. *)
Definition not_connected : string :=
  "Not connected. Call connect_autodetect_if_single() first.".

Definition fetch_device_model (close_after_fetch : bool) : M (result DeviceModel) :=
  let* s := get in
  match _dc (self s) with
  | None => ret (Raise not_connected)
  | Some dc =>
      match snapshot (world s) dc with
      | Raise msg => ret (Raise msg)
      | Return model =>
          (if close_after_fetch then close else ret tt) ;;
          ret (Return model)
      end
  end.

Definition refresh_channels : M (result (list MeshChannel)) :=
  let* s := get in
  match _dc (self s) with
  | None => ret (Raise not_connected)
  | Some dc =>
      match snapshot (world s) dc with
      | Raise msg => ret (Raise msg)
      | Return model => ret (Return (MeshChannels model))
      end
  end.

End Snapshot.

(** ** The port picker dialog ([ui/port_picker_dialog.py]) *)

(** [l[i]] on a Python list: a negative index counts from the end, an
    index out of range raises [IndexError] ([None]). *)
Definition py_index {A} (l : list A) (i : Z) : option A :=
  let n := Z.of_nat (length l) in
  if (0 <=? i)%Z && (i <? n)%Z then nth_error l (Z.to_nat i)
  else if (- n <=? i)%Z && (i <? 0)%Z then nth_error l (Z.to_nat (n + i))
  else None.

Module PortPickerDialog.

(** The state of the dialog that its callbacks read and write; the
    widgets themselves are left out, and calls into the toolkit are taken
    to succeed. [_status] is the text of the status label, [busy] the
    disabled state of the three buttons. *)
Record dialog := {
  _candidates : list candidate;
  _choice_var : Z;
  _status : string;
  dlg_result : option string;
  busy : bool;
  destroyed : bool
}.

Definition __init__ (candidates : option (list candidate))
    (default_index : Z) : dialog :=
  let cands := default [] candidates in
  let _selected_index :=
    Z.max 0 (Z.min default_index (Z.max 0 (Z.of_nat (length cands) - 1))) in
  {| _candidates := cands; _choice_var := _selected_index; _status := "";
     dlg_result := None; busy := false; destroyed := false |}.

(** The [for i, c in enumerate(...)] search of [_on_refresh]: the first
    index whose entry has the path. *)
Fixpoint index_of_path (sel_path : string) (l : list candidate) : option nat :=
  match l with
  | [] => None
  | c :: r =>
      if String.eqb (path c) sel_path then Some O
      else option_map S (index_of_path sel_path r)
  end.

(** [_on_refresh], given what [refresh_fn()] does: it raises, or returns a
    list or [None]. The list is stored before the selected path is read,
    so that path is read from the fresh list. *)
Definition _on_refresh (refreshed : result (option (list candidate)))
    (d : dialog) : dialog :=
  match refreshed with
  | Raise msg =>
      {| _candidates := _candidates d; _choice_var := _choice_var d;
         _status := msg; dlg_result := dlg_result d; busy := busy d;
         destroyed := destroyed d |}
  | Return o =>
      let fresh := default [] o in
      let sel_path :=
        match py_index fresh (_choice_var d) with
        | Some c => path c
        | None => ""
        end in
      let new_index :=
        if truthy (PStr sel_path) then
          match index_of_path sel_path fresh with
          | Some i => Z.of_nat i
          | None => 0%Z
          end
        else 0%Z in
      {| _candidates := fresh; _choice_var := new_index; _status := "";
         dlg_result := dlg_result d; busy := busy d;
         destroyed := destroyed d |}
  end.

(** The UTF-8 bytes of the ellipsis that ends the busy message. *)
Definition ellipsis : string :=
  String (ascii_of_nat 226)
    (String (ascii_of_nat 128) (String (ascii_of_nat 166) EmptyString)).

(** The part of [_on_connect] that runs in the caller: the new state and
    the port handed to the worker thread, if one is started. *)
Definition _on_connect (d : dialog) : dialog * option string :=
  match py_index (_candidates d) (_choice_var d) with
  | None =>
      ({| _candidates := _candidates d; _choice_var := _choice_var d;
          _status := "list index out of range"; dlg_result := dlg_result d;
          busy := busy d; destroyed := destroyed d |}, None)
  | Some cand =>
      let port := path cand in
      if truthy (PStr port) then
        ({| _candidates := _candidates d; _choice_var := _choice_var d;
            _status := "Connecting to " +:+ port +:+ ellipsis;
            dlg_result := dlg_result d; busy := true;
            destroyed := destroyed d |}, Some port)
      else
        ({| _candidates := _candidates d; _choice_var := _choice_var d;
            _status := "Select a port."; dlg_result := dlg_result d;
            busy := busy d; destroyed := destroyed d |}, None)
  end.

(** [_work]: [bool(connect_fn(port))], [False] when the call raises. *)
Definition _work (connected : result pyval) : bool :=
  match connected with
  | Return v => truthy v
  | Raise _ => false
  end.

(** [_done], run by the event loop once the worker has its answer. *)
Definition _done (port : string) (ok : bool) (d : dialog) : dialog :=
  if ok then
    {| _candidates := _candidates d; _choice_var := _choice_var d;
       _status := _status d; dlg_result := Some port; busy := busy d;
       destroyed := true |}
  else
    {| _candidates := _candidates d; _choice_var := _choice_var d;
       _status := "Failed to connect on " +:+ port
                  +:+ ". Please select another port or retry.";
       dlg_result := dlg_result d; busy := false;
       destroyed := destroyed d |}.

Definition _on_cancel (d : dialog) : dialog :=
  {| _candidates := _candidates d; _choice_var := _choice_var d;
     _status := _status d; dlg_result := None; busy := busy d;
     destroyed := true |}.

End PortPickerDialog.

(** ** Sample environments *)

Module Samples.

Definition port_usb : ListPortInfo :=
  {| device := "/dev/ttyUSB0";
     p_description := PStr "CP2102 USB to UART Bridge Controller";
     p_manufacturer := PStr "Silicon Labs"; p_product := PNone;
     p_serial_number := Some "0001"; p_vid := Some 0x10C4%Z;
     p_pid := Some 0xEA60%Z; p_hwid := Some "USB VID:PID=10C4:EA60";
     p_interface := PNone |}.

Definition port_bt : ListPortInfo :=
  {| device := "/dev/rfcomm0"; p_description := PStr "Bluetooth link";
     p_manufacturer := PNone; p_product := PNone; p_serial_number := None;
     p_vid := None; p_pid := None; p_hwid := None; p_interface := PNone |}.

Definition port_s0 : ListPortInfo :=
  {| device := "/dev/ttyS0"; p_description := PStr "n/a";
     p_manufacturer := PNone; p_product := PNone; p_serial_number := None;
     p_vid := None; p_pid := None; p_hwid := None; p_interface := PNone |}.

Definition port_s1 : ListPortInfo :=
  {| device := "/dev/ttyS1"; p_description := PStr "n/a";
     p_manufacturer := PNone; p_product := PNone; p_serial_number := None;
     p_vid := None; p_pid := None; p_hwid := None; p_interface := PNone |}.

(** A port whose description is not a string: parsing it raises. *)
Definition port_bad : ListPortInfo :=
  {| device := "/dev/ttyS9"; p_description := PInt 7;
     p_manufacturer := PNone; p_product := PNone; p_serial_number := None;
     p_vid := None; p_pid := None; p_hwid := None; p_interface := PNone |}.

(** A USB serial adapter on Windows, and the same adapter reported with
    a Bluetooth interface. *)
Definition port_com3 : ListPortInfo :=
  {| device := "COM3"; p_description := PStr "USB Serial Device (COM3)";
     p_manufacturer := PStr "Microsoft"; p_product := PNone;
     p_serial_number := None; p_vid := Some 0x239A%Z; p_pid := Some 0x8029%Z;
     p_hwid := None; p_interface := PNone |}.

Definition port_com3_bt : ListPortInfo :=
  {| device := "COM3"; p_description := PStr "USB Serial Device (COM3)";
     p_manufacturer := PStr "Microsoft"; p_product := PNone;
     p_serial_number := None; p_vid := Some 0x239A%Z; p_pid := Some 0x8029%Z;
     p_hwid := None; p_interface := PStr "Standard Serial over Bluetooth link" |}.

(** A CP2102 bridge on Windows that is reported with a Bluetooth
    interface. *)
Definition port_com7_bt : ListPortInfo :=
  {| device := "COM7";
     p_description := PStr "Silicon Labs CP210x USB to UART Bridge (COM7)";
     p_manufacturer := PStr "Silicon Labs"; p_product := PNone;
     p_serial_number := None; p_vid := Some 0x10C4%Z; p_pid := Some 0xEA60%Z;
     p_hwid := None; p_interface := PStr "Standard Serial over Bluetooth link" |}.

(** The twelfth COM port of a Windows host. *)
Definition port_com12 : ListPortInfo :=
  {| device := "COM12"; p_description := PStr "USB Serial Device (COM12)";
     p_manufacturer := PStr "Microsoft"; p_product := PNone;
     p_serial_number := None; p_vid := Some 0x239A%Z; p_pid := Some 0x8029%Z;
     p_hwid := None; p_interface := PNone |}.

Definition blank : candidate :=
  {| path := ""; description := ""; manufacturer := PNone; product := PNone;
     serial_number := None; vid := None; pid := None; hwid := None;
     is_bluetooth := false; is_legacy := false; score := 0; friendly := "";
     verified := false |}.

(** The entry made for a port ([blank] if the port is skipped). *)
Definition parsed (os : string) (p : ListPortInfo) : candidate :=
  default blank (parse_port os p).

(** The entry that an enumeration of the one port ends with, platform
    passes included ([blank] if the port is skipped). *)
Definition listed (os sys : string) (p : ListPortInfo) : candidate :=
  default blank (head (scored_candidates os sys [p])).

(** A clock that starts at 100 s and advances 10 s per reading. *)
Fixpoint slow_clock (n : nat) : float :=
  match n with
  | O => 100%float
  | S k => (slow_clock k + 10)%float
  end.

Definition mesh_ident (port : pyval) : list (string * pyval) :=
  [("port", port); ("hwModel", PStr "TBEAM")].

(** A clock that advances 1 s per reading. *)
Fixpoint quick_clock (n : nat) : float :=
  match n with
  | O => 100%float
  | S k => (quick_clock k + 1)%float
  end.

(** A host whose preference file does not exist yet but can be written,
    and whose probe workers always finish in time. *)
Definition host (os sys : string) (dev_open : nat -> pyval -> open_result)
    (clock : nat -> float) (ports : result (list ListPortInfo)) : World :=
  {| os_name := os; platform_system := sys; comports := ports;
     device_open := dev_open; worker_in_time := fun _ _ => true;
     monotonic := clock; cache_write := fun _ => WriteOk;
     opens := []; ticks := 0; cache_file := NoFile; fs_log := [] |}.

(** The first open raises, every later one succeeds. *)
Definition first_open_fails (n : nat) (p : pyval) : open_result :=
  match n with
  | O => OpenRaises "no such device"
  | S _ => Opened (mesh_ident p)
  end.

(** A Linux host on which every port opens and identifies itself. *)
Definition linux : result (list ListPortInfo) -> World :=
  host "posix" "Linux" (fun _ p => Opened (mesh_ident p)) slow_clock.

(** The same host when no port can be opened. *)
Definition linux_closed : result (list ListPortInfo) -> World :=
  host "posix" "Linux" (fun _ _ => OpenRaises "could not open port") slow_clock.

(** A clock that has not reached 5 s yet. *)
Definition young_clock (n : nat) : float := 2%float.

(** Two opens raise, the third succeeds, the next two raise, later ones
    succeed. *)
Definition third_open_succeeds (n : nat) (p : pyval) : open_result :=
  match n with
  | 2 | 5 => Opened (mesh_ident p)
  | _ => OpenRaises "could not open port"
  end.

(** The first and the third open succeed, the others raise. *)
Definition first_and_third_open (n : nat) (p : pyval) : open_result :=
  match n with
  | 0 | 2 => Opened (mesh_ident p)
  | _ => OpenRaises "could not open port"
  end.

End Samples.

(** * Vocabulary of the properties *)

(** ** Ranking *)

(** [a] may stand before [b] in a list sorted by descending score. *)
Definition ge_score (a b : candidate) : Prop := (score b <= score a)%Z.

Definition has_score (k : Z) (c : candidate) : bool := (score c =? k)%Z.

(** Both platform passes of [detect_candidates], on one entry. *)
Definition platform_adjust (os_name platform_system : string)
    (c : candidate) : candidate :=
  let c := if String.eqb (lower platform_system) "darwin" then adjust_darwin c else c in
  if String.eqb os_name "nt" then adjust_nt c else c.

(** [a] stands somewhere before [b] in [l]. *)
Definition before (a b : candidate) (l : list candidate) : Prop :=
  exists l1 l2 l3, l = l1 ++ a :: l2 ++ b :: l3.

(** ** The preference store *)

(** A store file that is there but does not hold the record: it cannot
    be read, it is not JSON, the JSON value is not an object, or the
    object has no [last_good_port]. *)
Definition corrupted (f : file_state) : Prop :=
  f = Unreadable \/ f = NotJson \/
  (exists v, f = JsonDoc v /\ forall kv, v <> PDict kv) \/
  (exists kv, f = JsonDoc (PDict kv) /\
              existsb (fun b => String.eqb (fst b) "last_good_port") kv = false).

(** ** What every operation leaves alone *)

(** The oracles and the platform are the same in both worlds. *)
Definition same_env (w w' : World) : Prop :=
  os_name w' = os_name w /\ platform_system w' = platform_system w /\
  comports w' = comports w /\ device_open w' = device_open w /\
  worker_in_time w' = worker_in_time w /\ monotonic w' = monotonic w /\
  cache_write w' = cache_write w.

(** Port [p] was opened with success between the two states. *)
Definition opened_between (s s' : State) (p : pyval) : Prop :=
  exists n ident,
    length (opens (world s)) <= n /\
    opens (world s') !! n = Some p /\
    device_open (world s) n p = Opened ident.

(** [s'] comes after [s]: the environment is the same, the log of opens
    has grown at its end, the preference file was only written, each
    write of a port follows a successful open of that port, and the
    constructor's fields are as they were. *)
Record evolves (s s' : State) : Prop := {
  ev_env : same_env (world s) (world s');
  ev_opens : exists new, opens (world s') = opens (world s) ++ new;
  ev_log : exists ports,
      fs_log (world s') = fs_log (world s) ++ map CacheWrite ports /\
      Forall (opened_between s s') ports;
  ev_file : fs_log (world s') = fs_log (world s) ->
            cache_file (world s') = cache_file (world s);
  ev_last_good : _last_good_port (self s') = _last_good_port (self s);
  ev_explicit : _explicit_port (self s') = _explicit_port (self s)
}.

(** A computation all of whose runs are of this kind. *)
Definition keeps {A} (m : M A) : Prop := forall s, evolves s (snd (m s)).

(** ** Lifetime of a controller *)

(** The operations a caller can invoke on a constructed controller
    ([detect_candidates] only reads the environment). *)
Inductive op : Type :=
| OpTryConnect (port : pyval)
| OpAutoConnect
| OpConnectSingle
| OpProbe (port : string) (timeout_s : float)
| OpLastError
| OpClose.

Definition step (s : State) (o : op) : State :=
  match o with
  | OpTryConnect port => snd (try_connect port s)
  | OpAutoConnect => snd (auto_connect_or_candidates s)
  | OpConnectSingle => snd (connect_autodetect_if_single s)
  | OpProbe port timeout_s => snd (_probe_port port timeout_s s)
  | OpLastError => snd (last_error s)
  | OpClose => snd (close s)
  end.

Definition run (ops : list op) (s : State) : State := foldl step s ops.

(** ** Probing *)

(** The time recorded for [port], as the throttle test reads it. *)
Definition last_probe (s : State) (port : string) : float :=
  default 0%float (_probe_recent (self s) !! port).

(** The next reading of the clock. *)
Definition clock_now (s : State) : float :=
  monotonic (world s) (ticks (world s)).

(** The throttle test of the next probe of [port] succeeds. *)
Definition throttled (s : State) (port : string) : bool :=
  probed_recently (clock_now s) (last_probe s port).

(** [n] probes of the same port, one after the other. *)
Fixpoint probes (n : nat) (port : string) (timeout_s : float) (s : State) : State :=
  match n with
  | O => s
  | S k => snd (_probe_port port timeout_s (probes k port timeout_s s))
  end.

(** ** The connect flow *)

(** How a resolution from a disconnected controller can end. *)
Inductive outcome (s' : State) : pyval * list candidate -> Prop :=
| Connected p :
    truthy p = true -> outcome s' (p, [])
| NothingFound e :
    _last_error (self s') = Some e ->
    code e = "open_failed" \/ code e = "no_candidates" ->
    candidates e = None ->
    outcome s' (PNone, [])
| Ambiguous c l :
    (_last_error (self s') = None \/
     exists msg, _last_error (self s') = Some (open_failed msg)) ->
    outcome s' (PNone, c :: l).

(** No error is recorded, or the record of a failed open. *)
Definition error_free_or_open_failed (s : State) : Prop :=
  _last_error (self s) = None \/
  exists msg, _last_error (self s) = Some (open_failed msg).

(** ** The single confident candidate *)

(** The [k]-th open from now on raises for [port]. *)
Definition fails_to_open (s : State) (k : nat) (port : pyval) : Prop :=
  exists msg,
    device_open (world s) (length (opens (world s)) + k) port = OpenRaises msg.

(** Number of opens made by steps 1 and 2: one for a configured explicit
    port, one for a last good port. *)
Definition explicit_attempts (s : State) : nat :=
  if truthy (opt_str (_explicit_port (self s))) then 1 else 0.

Definition known_attempts (s : State) : nat :=
  explicit_attempts s + (if truthy (_last_good_port (self s)) then 1 else 0).

(** Steps 1 and 2 open nothing: no such port is configured, or opening
    it raises. *)
Definition known_ports_fail (s : State) : Prop :=
  (truthy (opt_str (_explicit_port (self s))) = true ->
   fails_to_open s 0 (opt_str (_explicit_port (self s)))) /\
  (truthy (_last_good_port (self s)) = true ->
   fails_to_open s (explicit_attempts s) (_last_good_port (self s))).

(** ** Well-formed ports *)

(** A text attribute as pyserial gives it: a [str], or a false value
    such as [None]. *)
Definition is_text (v : pyval) : bool :=
  match v with
  | PStr _ => true
  | _ => negb (truthy v)
  end.

(** The attribute is a string that contains "bluetooth" in any case. *)
Definition names_bluetooth (v : pyval) : bool :=
  match v with
  | PStr t => contains "bluetooth" (lower t)
  | _ => false
  end.

(** [desc] of [detect_candidates]: the description, or the device name
    when the description is empty. *)
Definition shown_description (p : ListPortInfo) : pyval :=
  py_or (p_description p) (PStr (device p)).

(** The port can be parsed: description, manufacturer and product are
    text, and so is the interface unless one of the former already names
    Bluetooth (the interface is then not looked at). *)
Definition well_formed (p : ListPortInfo) : bool :=
  is_text (shown_description p) && is_text (p_manufacturer p)
  && is_text (p_product p)
  && (is_text (p_interface p)
      || names_bluetooth (shown_description p)
      || names_bluetooth (p_manufacturer p)
      || names_bluetooth (p_product p)).

(** All four text attributes are strings or false values. *)
Definition plain_port (p : ListPortInfo) : bool :=
  is_text (p_description p) && is_text (p_manufacturer p)
  && is_text (p_product p) && is_text (p_interface p).

(** The same port under another device name. *)
Definition with_device (dev : string) (p : ListPortInfo) : ListPortInfo :=
  {| device := dev; p_description := p_description p;
     p_manufacturer := p_manufacturer p; p_product := p_product p;
     p_serial_number := p_serial_number p; p_vid := p_vid p;
     p_pid := p_pid p; p_hwid := p_hwid p; p_interface := p_interface p |}.

(** ** Effort *)

(** Every run of [m] opens at most [a] ports and reads the clock at most
    [b] times. *)
Definition within (a b : nat) {A} (m : M A) : Prop :=
  forall s,
    length (opens (world (snd (m s)))) <= length (opens (world s)) + a /\
    ticks (world (snd (m s))) <= ticks (world s) + b.

(** ** The dialog's selection *)

(** The selected index points into the list, or the list is empty and
    the index is 0. *)
Definition selection_valid (d : PortPickerDialog.dialog) : Prop :=
  (0 <= PortPickerDialog._choice_var d)%Z /\
  ((PortPickerDialog._choice_var d
    < Z.of_nat (length (PortPickerDialog._candidates d)))%Z \/
   (PortPickerDialog._candidates d = [] /\ PortPickerDialog._choice_var d = 0%Z)).

(** The dialog after it was opened and refreshed a number of times. *)
Definition refreshed_dialog (candidates : option (list candidate))
    (default_index : Z) (rs : list (result (option (list candidate))))
    : PortPickerDialog.dialog :=
  foldl (fun d r => PortPickerDialog._on_refresh r d)
        (PortPickerDialog.__init__ candidates default_index) rs.

(** ** Which ports are opened *)



(** * Properties *)

(** ** The model at work *)

Example score_of_cp210x :
  _score_port "/dev/ttyUSB0" (Some 0x10C4%Z) (Some 0xEA60%Z)
              (PStr "CP2102 USB to UART Bridge Controller")
              (PStr "Silicon Labs") PNone false false = Some 85%Z.
Proof. reflexivity. Qed.

Example score_raises_on_non_string :
  _score_port "/dev/ttyS9" None None (PInt 7) PNone PNone false false = None.
Proof. reflexivity. Qed.

Example detection_on_linux :
  match detect_candidates
          (Samples.linux (Return [Samples.port_s0; Samples.port_bt;
                                  Samples.port_bad; Samples.port_usb;
                                  Samples.port_s1])) with
  | Return out => map (fun c => (path c, score c)) out
  | Raise _ => []
  end
  = [("/dev/ttyUSB0", 85%Z); ("/dev/ttyS0", 0%Z); ("/dev/ttyS1", 0%Z);
     ("/dev/rfcomm0", (-30)%Z)].
Proof. reflexivity. Qed.

Example throttle_window :
  probed_recently 104.5%float 100%float = true /\
  probed_recently 105%float 100%float = false.
Proof. split; reflexivity. Qed.

Example load_of_documents :
  loaded (JsonDoc (PDict [("last_good_port", PStr "COM7")])) = PStr "COM7" /\
  loaded (JsonDoc (PList [PStr "COM7"])) = PNone /\
  loaded (JsonDoc PNone) = PNone /\
  loaded NotJson = PNone.
Proof. repeat split. Qed.

(** ** The monad's equations *)

Lemma bind_eq {A B} (m : M A) (k : A -> M B) (s : State) :
  bind m k s = k (fst (m s)) (snd (m s)).
Proof. unfold bind. destruct (m s); reflexivity. Qed.

(** ** Ranking *)

Section Ranking.

Lemma insert_desc_perm c l : Permutation (c :: l) (insert_desc c l).
Proof.
  induction l as [|d r IH]; simpl; [reflexivity|].
  destruct (score c <? score d)%Z; [|reflexivity].
  etransitivity; [apply perm_swap|]. now apply perm_skip.
Qed.

Lemma sort_desc_perm l : Permutation l (sort_desc l).
Proof.
  induction l as [|c r IH]; simpl; [constructor|].
  etransitivity; [|apply insert_desc_perm]. now apply perm_skip.
Qed.

Lemma insert_desc_Forall (P : candidate -> Prop) c l :
  P c -> Forall P l -> Forall P (insert_desc c l).
Proof.
  intros Hc Hl. induction Hl as [|d r Hd Hr IH]; simpl.
  - repeat constructor; assumption.
  - destruct (score c <? score d)%Z; repeat constructor; assumption.
Qed.

Lemma insert_desc_sorted c l :
  StronglySorted ge_score l -> StronglySorted ge_score (insert_desc c l).
Proof.
  induction 1 as [|d r Hr IH Hd]; simpl.
  - repeat constructor.
  - destruct (score c <? score d)%Z eqn:E.
    + constructor; [exact IH|].
      apply insert_desc_Forall; [|exact Hd].
      unfold ge_score. apply Z.ltb_lt in E. lia.
    + apply Z.ltb_ge in E. constructor; [now constructor|].
      constructor; [exact E|].
      eapply List.Forall_impl; [|exact Hd].
      unfold ge_score. intros x Hx. lia.
Qed.

Lemma sort_desc_sorted l : StronglySorted ge_score (sort_desc l).
Proof.
  induction l as [|c r IH]; simpl; [constructor|].
  now apply insert_desc_sorted.
Qed.

(** Inserting never moves an entry past one of the same score. *)
Lemma insert_desc_stable k c l :
  List.filter (has_score k) (insert_desc c l) = List.filter (has_score k) (c :: l).
Proof.
  induction l as [|d r IH]; [reflexivity|].
  cbn [insert_desc]. destruct (score c <? score d)%Z eqn:E; [|reflexivity].
  apply Z.ltb_lt in E.
  cbn [List.filter] in *. rewrite IH. unfold has_score.
  destruct (score c =? k)%Z eqn:Ec, (score d =? k)%Z eqn:Ed; try reflexivity.
  apply Z.eqb_eq in Ec, Ed. lia.
Qed.

Lemma sort_desc_stable k l :
  List.filter (has_score k) (sort_desc l) = List.filter (has_score k) l.
Proof.
  induction l as [|c r IH]; [reflexivity|].
  cbn [sort_desc foldr]. rewrite insert_desc_stable.
  cbn [List.filter]. fold (sort_desc r). now rewrite IH.
Qed.

Lemma scored_candidates_map os sys ports :
  scored_candidates os sys ports =
  map (platform_adjust os sys) (omap (parse_port os) ports).
Proof.
  unfold scored_candidates, platform_adjust.
  destruct (String.eqb (lower sys) "darwin"), (String.eqb os "nt");
    rewrite ?map_map, ?map_id; reflexivity.
Qed.

Lemma adjust_darwin_path c : path (adjust_darwin c) = path c.
Proof.
  unfold adjust_darwin. repeat case_match; reflexivity.
Qed.

Lemma adjust_nt_path c : path (adjust_nt c) = path c.
Proof. unfold adjust_nt. destruct (is_bluetooth c); reflexivity. Qed.

Lemma platform_adjust_path os sys c : path (platform_adjust os sys c) = path c.
Proof.
  unfold platform_adjust.
  destruct (String.eqb (lower sys) "darwin"), (String.eqb os "nt");
    rewrite ?adjust_nt_path, ?adjust_darwin_path; reflexivity.
Qed.

Lemma adjust_darwin_bluetooth c : is_bluetooth (adjust_darwin c) = is_bluetooth c.
Proof.
  unfold adjust_darwin. repeat case_match; reflexivity.
Qed.

Lemma parse_port_path os p c : parse_port os p = Some c -> path c = device p.
Proof.
  unfold parse_port. intros H.
  repeat match type of H with
         | match ?x with _ => _ end = _ => destruct x; try discriminate
         end.
  now inversion H.
Qed.

(** The entries before the sort are the ports that could be parsed, in
    the order of the enumeration. *)
Lemma scored_candidates_order os sys ports :
  map path (scored_candidates os sys ports) =
  map device (List.filter (fun p => not_none (parse_port os p)) ports).
Proof.
  rewrite scored_candidates_map, map_map.
  induction ports as [|p r IH]; [reflexivity|].
  cbn [omap list_omap List.filter].
  destruct (parse_port os p) as [c|] eqn:E; cbn [not_none]; [|exact IH].
  cbn [map]. rewrite IH, platform_adjust_path.
  now rewrite (parse_port_path _ _ _ E).
Qed.

Lemma before_cons x a b l : before a b l -> before a b (x :: l).
Proof. intros (l1 & l2 & l3 & ->). now exists (x :: l1), l2, l3. Qed.

Lemma before_filter (f : candidate -> bool) a b l :
  f a = true -> f b = true -> before a b l -> before a b (List.filter f l).
Proof.
  intros Ha Hb (l1 & l2 & l3 & ->).
  exists (List.filter f l1), (List.filter f l2), (List.filter f l3).
  rewrite List.filter_app. cbn [List.filter]. rewrite Ha.
  rewrite List.filter_app. cbn [List.filter]. now rewrite Hb.
Qed.

Lemma before_unfilter (f : candidate -> bool) a b l :
  before a b (List.filter f l) -> before a b l.
Proof.
  induction l as [|x r IH]; intros (l1 & l2 & l3 & E).
  - destruct l1; discriminate.
  - cbn [List.filter] in E. destruct (f x).
    + destruct l1 as [|y l1]; cbn [app] in E.
      * injection E as -> E.
        assert (Hin : In b (List.filter f r)).
        { rewrite E. apply in_or_app. right. now left. }
        apply List.filter_In in Hin as [Hin _].
        apply in_split in Hin as (r1 & r2 & ->).
        now exists [], r1, r2.
      * injection E as -> E. apply before_cons, IH.
        now exists l1, l2, l3.
    + apply before_cons, IH. now exists l1, l2, l3.
Qed.

(** Stability, entry by entry: two entries of equal score stand in the
    sorted list as they stood in the list that was sorted. *)
Lemma sort_desc_keeps_order a b l :
  score a = score b -> before a b (sort_desc l) -> before a b l.
Proof.
  intros E H.
  apply (before_unfilter (has_score (score a))).
  rewrite <- sort_desc_stable.
  apply before_filter; [| |exact H]; unfold has_score.
  - apply Z.eqb_refl.
  - apply Z.eqb_eq. now symmetry.
Qed.

End Ranking.

(** C3: whatever ports are enumerated, the list returned by
    [detect_candidates] is sorted by descending final score (the score
    after the platform passes), and entries of equal score keep the order
    of the enumeration: the sort is stable with respect to the list of
    parsed ports, whose order is that of [comports()]. *)
Theorem detect_candidates_sorted_stable (w : World) (ports : list ListPortInfo) :
  comports w = Return ports ->
  let enumerated := scored_candidates (os_name w) (platform_system w) ports in
  exists out,
    detect_candidates w = Return out /\
    StronglySorted ge_score out /\
    Permutation enumerated out /\
    (forall k, List.filter (has_score k) out = List.filter (has_score k) enumerated) /\
    (forall a b, score a = score b -> before a b out -> before a b enumerated) /\
    map path enumerated =
      map device (List.filter (fun p => not_none (parse_port (os_name w) p)) ports).
Proof.
  intros Hports enumerated. exists (sort_desc enumerated).
  unfold detect_candidates. rewrite Hports.
  split; [reflexivity|].
  split; [apply sort_desc_sorted|].
  split; [apply sort_desc_perm|].
  split; [intros k; apply sort_desc_stable|].
  split; [intros a b; apply sort_desc_keeps_order|].
  apply scored_candidates_order.
Qed.

Lemma detect_candidates_sorted_stable_witness :
  let w := Samples.linux (Return [Samples.port_s0; Samples.port_bt;
                                  Samples.port_bad; Samples.port_usb;
                                  Samples.port_s1]) in
  exists out,
    detect_candidates w = Return out /\
    StronglySorted ge_score out /\
    map path out = ["/dev/ttyUSB0"; "/dev/ttyS0"; "/dev/ttyS1"; "/dev/rfcomm0"].
Proof.
  intros w.
  destruct (detect_candidates_sorted_stable w
              [Samples.port_s0; Samples.port_bt; Samples.port_bad;
               Samples.port_usb; Samples.port_s1] eq_refl)
    as (out & Hout & Hsorted & _).
  exists out. split; [exact Hout|]. split; [exact Hsorted|].
  vm_compute in Hout. injection Hout as <-. reflexivity.
Defined.

(** ** The Bluetooth penalty *)

Lemma _score_port_bluetooth dev vid pid desc manu prod leg s :
  _score_port dev vid pid desc manu prod false leg = Some s ->
  _score_port dev vid pid desc manu prod true leg = Some (s - 30)%Z.
Proof.
  unfold _score_port.
  destruct (py_join " " _) as [t|]; [|discriminate].
  destruct (existsb _ keywords); intros [= <-]; f_equal;
    repeat case_match; lia.
Qed.

Lemma adjust_darwin_score_shift c d :
  path c = path d ->
  (score (adjust_darwin c) - score c = score (adjust_darwin d) - score d)%Z.
Proof.
  intros E. unfold adjust_darwin. rewrite E.
  destruct (startswith (path d) "/dev/tty."); cbn [path set_score];
    rewrite ?E; destruct (startswith (path d) "/dev/cu.");
    cbn [score set_score]; lia.
Qed.

(** The distance between two entries that differ in the Bluetooth flag
    only, before and after both platform passes. *)
Lemma bluetooth_gap_after_passes (os sys dev : string) (vid pid : option Z)
    (desc manu prod : pyval) (leg : bool) (s : Z) (c_bt c : candidate) :
  _score_port dev vid pid desc manu prod false leg = Some s ->
  path c_bt = dev -> path c = dev ->
  is_bluetooth c_bt = true -> is_bluetooth c = false ->
  _score_port dev vid pid desc manu prod true leg = Some (score c_bt) ->
  score c = s ->
  score c_bt = (s - 30)%Z /\
  score (platform_adjust os sys c_bt) =
    (score (platform_adjust os sys c) - 30
     - (if String.eqb os "nt" then 25 else 0))%Z /\
  (score (platform_adjust os sys c_bt) <= score (platform_adjust os sys c) - 30)%Z.
Proof.
  intros Hs Hp1 Hp2 Hb1 Hb2 Hs1 Hs2.
  rewrite (_score_port_bluetooth _ _ _ _ _ _ _ _ Hs) in Hs1.
  injection Hs1 as Hs1.
  assert (Hshift := adjust_darwin_score_shift c_bt c ltac:(congruence)).
  assert (Hx : score (platform_adjust os sys c_bt) =
    (score (platform_adjust os sys c) - 30
     - (if String.eqb os "nt" then 25 else 0))%Z).
  { unfold platform_adjust, adjust_nt.
    destruct (String.eqb (lower sys) "darwin"), (String.eqb os "nt");
      rewrite ?adjust_darwin_bluetooth, ?Hb1, ?Hb2; cbn [score set_score]; lia. }
  split; [lia|]. split; [exact Hx|].
  rewrite Hx. destruct (String.eqb os "nt"); lia.
Qed.

(** ** Entries of the enumeration *)

Lemma scored_candidates_app os sys l1 l2 :
  scored_candidates os sys (l1 ++ l2) =
  scored_candidates os sys l1 ++ scored_candidates os sys l2.
Proof. now rewrite !scored_candidates_map, omap_app, map_app. Qed.

(** The entry of a one-port enumeration is the parsed port after the
    platform passes. *)
Lemma scored_single os sys p c :
  scored_candidates os sys [p] = [c] <->
  exists c0, parse_port os p = Some c0 /\ c = platform_adjust os sys c0.
Proof.
  rewrite scored_candidates_map. cbn [omap list_omap].
  destruct (parse_port os p) as [c0|]; cbn [map].
  - split; [intros [= <-]; eauto|intros (c1 & [= <-] & ->); reflexivity].
  - split; [discriminate|intros (c1 & H & _); discriminate H].
Qed.

(** Each entry made of an enumeration is the entry made of one of its
    ports, and the other way round. *)
Lemma scored_In os sys ports c :
  In c (scored_candidates os sys ports) <->
  exists p, In p ports /\ scored_candidates os sys [p] = [c].
Proof.
  induction ports as [|q r IH].
  - rewrite scored_candidates_map. split; [intros []|intros (p & H & _); destruct H].
  - change (q :: r) with ([q] ++ r). rewrite scored_candidates_app, in_app_iff, IH.
    split.
    + intros [H|(p & Hp & Hc)].
      * exists q. split; [now left|].
        rewrite scored_candidates_map in H |- *. cbn [omap list_omap] in H |- *.
        destruct (parse_port os q); cbn [map In] in H |- *; [|destruct H].
        destruct H as [<-|[]]. reflexivity.
      * exists p. split; [now right|exact Hc].
    + intros (p & [<-|Hp] & Hc).
      * left. rewrite Hc. now left.
      * right. eauto.
Qed.

(** The entries of the returned list are the entries made of the ports. *)
Lemma detect_candidates_In w ports out c :
  comports w = Return ports ->
  detect_candidates w = Return out ->
  In c out <-> In c (scored_candidates (os_name w) (platform_system w) ports).
Proof.
  intros H. unfold detect_candidates. rewrite H. intros [= <-].
  split; apply Permutation_in;
    [apply Permutation_sym|]; apply sort_desc_perm.
Qed.

Lemma detect_candidates_entry w out c :
  detect_candidates w = Return out -> In c out ->
  exists ports p c0,
    comports w = Return ports /\ In p ports /\
    parse_port (os_name w) p = Some c0 /\
    c = platform_adjust (os_name w) (platform_system w) c0.
Proof.
  intros Hd Hc. destruct (comports w) as [msg|ports] eqn:Hp.
  - unfold detect_candidates in Hd. rewrite Hp in Hd. discriminate.
  - apply (proj1 (detect_candidates_In w ports out c Hp Hd)) in Hc.
    apply scored_In in Hc as (p & Hin & Hs).
    apply scored_single in Hs as (c0 & H0 & ->).
    now exists ports, p, c0.
Qed.

Lemma platform_adjust_fields os sys c :
  is_bluetooth (platform_adjust os sys c) = is_bluetooth c /\
  vid (platform_adjust os sys c) = vid c /\
  pid (platform_adjust os sys c) = pid c.
Proof.
  unfold platform_adjust, adjust_darwin, adjust_nt.
  repeat case_match; repeat split.
Qed.

Lemma platform_adjust_legacy os sys c :
  is_legacy (platform_adjust os sys c) = is_legacy c.
Proof.
  unfold platform_adjust, adjust_darwin, adjust_nt.
  repeat case_match; reflexivity.
Qed.

Lemma before_or (a b : candidate) l :
  a <> b -> In a l -> In b l -> before a b l \/ before b a l.
Proof.
  intros Hne Ha Hb. apply in_split in Ha as (l1 & l2 & ->).
  apply in_app_or in Hb as [Hb|[Hb|Hb]].
  - apply in_split in Hb as (m1 & m2 & ->). right.
    exists m1, m2, l2. now rewrite <- app_assoc.
  - congruence.
  - apply in_split in Hb as (m1 & m2 & ->). left. now exists l1, m1, m2.
Qed.

Lemma sorted_before a b l :
  StronglySorted ge_score l -> before a b l -> (score b <= score a)%Z.
Proof.
  intros Hs (l1 & l2 & l3 & ->).
  induction l1 as [|d l1 IH]; cbn [app] in Hs;
    apply StronglySorted_inv in Hs as [Ht Hf]; [|exact (IH Ht)].
  apply (proj1 (List.Forall_forall _ _) Hf).
  apply in_or_app. right. now left.
Qed.

(** C4: two ports of one enumeration that agree on every raw attribute
    fed to the scorer and whose entries differ in the Bluetooth flag.
    [_score_port] puts the flagged one exactly 30 points below the other;
    in the list that [detect_candidates] returns, where both entries
    stand with their final scores, the flagged entry is 30 points below
    its twin, and 55 on Windows ([os.name] is [nt]), where the further
    demotion of 25 is added; so it always ends at least 30 points
    lower. *)
Theorem bluetooth_scores_lower (w : World) (ports : list ListPortInfo)
    (p p_bt : ListPortInfo) (c c_bt : candidate) :
  comports w = Return ports ->
  In p ports -> In p_bt ports ->
  device p_bt = device p ->
  p_description p_bt = p_description p ->
  p_manufacturer p_bt = p_manufacturer p ->
  p_product p_bt = p_product p ->
  p_vid p_bt = p_vid p -> p_pid p_bt = p_pid p ->
  scored_candidates (os_name w) (platform_system w) [p] = [c] ->
  scored_candidates (os_name w) (platform_system w) [p_bt] = [c_bt] ->
  is_bluetooth c = false -> is_bluetooth c_bt = true ->
  (exists out, detect_candidates w = Return out /\ In c out /\ In c_bt out) /\
  (exists s,
     _score_port (device p) (p_vid p) (p_pid p) (shown_description p)
                 (p_manufacturer p) (p_product p)
                 (is_bluetooth c) (is_legacy c) = Some s /\
     _score_port (device p_bt) (p_vid p_bt) (p_pid p_bt) (shown_description p_bt)
                 (p_manufacturer p_bt) (p_product p_bt)
                 (is_bluetooth c_bt) (is_legacy c_bt) = Some (s - 30)%Z) /\
  score c_bt =
    (score c - 30 - (if String.eqb (os_name w) "nt" then 25 else 0))%Z /\
  (score c_bt <= score c - 30)%Z.
Proof.
  intros Hports Hin Hinb Hdev Hdesc Hmanu Hprod Hvid Hpid Hc Hcb Hb Hbb.
  split.
  { unfold detect_candidates. rewrite Hports. eexists. split; [reflexivity|].
    split; (eapply Permutation_in; [apply sort_desc_perm|]);
      apply scored_In; eauto. }
  rewrite Hb, Hbb.
  apply scored_single in Hc as (c0 & H0 & ->).
  apply scored_single in Hcb as (cb0 & Hb0 & ->).
  rewrite !platform_adjust_legacy.
  unfold shown_description at 2. rewrite Hdev, Hdesc, Hmanu, Hprod, Hvid, Hpid.
  fold (shown_description p).
  destruct (platform_adjust_fields (os_name w) (platform_system w) c0) as [E _].
  destruct (platform_adjust_fields (os_name w) (platform_system w) cb0) as [Eb _].
  rewrite E in Hb. rewrite Eb in Hbb. clear E Eb.
  unfold parse_port in H0, Hb0.
  rewrite Hdev, Hdesc, Hmanu, Hprod, Hvid, Hpid in Hb0.
  fold (shown_description p) in H0, Hb0.
  set (leg := String.eqb (os_name w) "nt" && startswith (upper (device p)) "COM1") in *.
  destruct (any_bluetooth [shown_description p; p_manufacturer p; p_product p;
                           p_interface p]) as [b|]; [|discriminate].
  destruct (any_bluetooth [shown_description p; p_manufacturer p; p_product p;
                           p_interface p_bt]) as [b'|]; [|discriminate].
  destruct (_score_port _ _ _ _ _ _ b leg) as [sc|] eqn:Es; [|discriminate].
  destruct (_score_port _ _ _ _ _ _ b' leg) as [scb|] eqn:Esb; [|discriminate].
  destruct (py_join " | " _) as [dj|]; [|discriminate].
  injection H0 as H0. injection Hb0 as Hb0.
  assert (b = false) by (rewrite <- H0 in Hb; exact Hb).
  assert (b' = true) by (rewrite <- Hb0 in Hbb; exact Hbb).
  subst b b'.
  split.
  { exists sc. rewrite <- H0, <- Hb0. cbn [is_legacy].
    split; [exact Es|]. now apply _score_port_bluetooth. }
  destruct (bluetooth_gap_after_passes (os_name w) (platform_system w)
              (device p) (p_vid p) (p_pid p) (shown_description p)
              (p_manufacturer p) (p_product p) leg sc cb0 c0)
    as (_ & Hgap & Hle);
    try (rewrite <- ?H0, <- ?Hb0; first [exact Es|exact Esb|reflexivity]).
  split; [exact Hgap|exact Hle].
Qed.

Lemma bluetooth_scores_lower_witness :
  score (Samples.listed "nt" "Windows" Samples.port_com3_bt)
  = (score (Samples.listed "nt" "Windows" Samples.port_com3) - 30 - 25)%Z.
Proof.
  refine (proj1 (proj2 (proj2 (bluetooth_scores_lower
           (Samples.host "nt" "Windows"
              (fun _ p => Opened (Samples.mesh_ident p)) Samples.slow_clock
              (Return [Samples.port_com3; Samples.port_com3_bt]))
           [Samples.port_com3; Samples.port_com3_bt]
           Samples.port_com3 Samples.port_com3_bt
           (Samples.listed "nt" "Windows" Samples.port_com3)
           (Samples.listed "nt" "Windows" Samples.port_com3_bt)
           _ _ _ _ _ _ _ _ _ _ _ _ _))));
    try reflexivity.
  - left. reflexivity.
  - right. left. reflexivity.
Defined.

(** ** The preference store *)

Lemma dict_get_absent kv k :
  existsb (fun b => String.eqb (fst b) k) kv = false -> dict_get kv k = PNone.
Proof.
  induction kv as [|[k' v] r IH]; [reflexivity|].
  cbn [existsb fst dict_get]. intros H.
  apply orb_false_iff in H as [Hk Hr].
  now rewrite Hr, Hk.
Qed.

Lemma loaded_corrupted f : f = NoFile \/ corrupted f -> loaded f = PNone.
Proof.
  intros [->|[->|[->|[(v & -> & Hv)|(kv & -> & Hk)]]]]; try reflexivity.
  - unfold loaded, load_body, py_or.
    destruct v; cbn; try reflexivity.
    + destruct b; reflexivity.
    + destruct (negb (z =? 0)%Z); reflexivity.
    + destruct (negb (String.eqb s "")); reflexivity.
    + destruct l; reflexivity.
    + now destruct (Hv kv).
  - unfold loaded, load_body, py_or.
    destruct kv as [|b kv]; [reflexivity|].
    cbn [truthy]. now apply dict_get_absent.
Qed.

(** C8: a port string saved by a write that goes through is what the next
    load returns, whatever the file held before; and on a missing or
    corrupted file the load returns [None]: the load is a total function,
    every exception of its [try] block ends in the [except] branch. *)
Theorem last_good_port_round_trip (port : string) (s : State) (f : file_state) :
  cache_write (world s) (length (fs_log (world s))) = WriteOk ->
  f = NoFile \/ corrupted f ->
  fst (_load_last_good_port (snd (_save_last_good_port (PStr port) s)))
    = PStr port /\
  forall s', cache_file (world s') = f ->
    fst (_load_last_good_port s') = PNone /\
    cache_file (world (snd (_load_last_good_port s'))) = f.
Proof.
  intros Hw Hf. split.
  - cbn. rewrite Hw. cbn. reflexivity.
  - intros s' <-. split; [|reflexivity].
    cbn. now apply loaded_corrupted.
Qed.

Lemma last_good_port_round_trip_witness :
  fst (_load_last_good_port
         (snd (_save_last_good_port (PStr "/dev/ttyUSB0")
                 (__init__ None (Samples.linux (Return []))))))
    = PStr "/dev/ttyUSB0" /\
  fst (_load_last_good_port
         {| self := self (__init__ None (Samples.linux (Return [])));
            world := with_file NotJson [] (Samples.linux (Return [])) |})
    = PNone.
Proof.
  destruct (last_good_port_round_trip "/dev/ttyUSB0"
              (__init__ None (Samples.linux (Return []))) NotJson)
    as [Hsave Hload].
  - reflexivity.
  - right. right. left. reflexivity.
  - split; [exact Hsave|].
    apply (Hload {| self := self (__init__ None (Samples.linux (Return [])));
                    world := with_file NotJson [] (Samples.linux (Return [])) |}).
    reflexivity.
Defined.

(** ** What every operation leaves alone *)

Section Frame.

Lemma same_env_refl w : same_env w w.
Proof. repeat split. Qed.

Lemma same_env_trans w1 w2 w3 :
  same_env w1 w2 -> same_env w2 w3 -> same_env w1 w3.
Proof.
  unfold same_env. intros (?&?&?&?&?&?&?) (?&?&?&?&?&?&?).
  repeat split; congruence.
Qed.

Lemma evolves_refl s : evolves s s.
Proof.
  split; try reflexivity.
  - apply same_env_refl.
  - exists []. now rewrite app_nil_r.
  - exists []. split; [now rewrite app_nil_r|constructor].
Qed.

Lemma evolves_trans s1 s2 s3 : evolves s1 s2 -> evolves s2 s3 -> evolves s1 s3.
Proof.
  intros [E1 [n1 O1] [p1 [L1 F1]] C1 G1 X1] [E2 [n2 O2] [p2 [L2 F2]] C2 G2 X2].
  split.
  - eapply same_env_trans; eassumption.
  - exists (n1 ++ n2). now rewrite O2, O1, <- app_assoc.
  - exists (p1 ++ p2). split.
    + now rewrite L2, L1, map_app, <- app_assoc.
    + apply Forall_app. split.
      * eapply List.Forall_impl; [|exact F1].
        intros p (n & i & Hn & Hp & Hi). exists n, i.
        split; [exact Hn|]. split; [|exact Hi].
        rewrite O2. now apply lookup_app_l_Some.
      * eapply List.Forall_impl; [|exact F2].
        intros p (n & i & Hn & Hp & Hi). exists n, i.
        split; [rewrite O1, length_app in Hn; lia|].
        split; [exact Hp|].
        destruct E1 as (_ & _ & _ & <- & _). exact Hi.
  - intros H. rewrite L2, L1 in H.
    assert (p1 = [] /\ p2 = []) as [-> ->].
    { apply (f_equal (@length _)) in H.
      rewrite !length_app, !length_map in H.
      destruct p1, p2; cbn in H; try lia. now split. }
    cbn in L1, L2. rewrite app_nil_r in L1, L2.
    now rewrite C2, C1.
  - congruence.
  - congruence.
Qed.

Lemma keeps_ret {A} (a : A) : keeps (ret a).
Proof. intros s. apply evolves_refl. Qed.

Lemma keeps_bind {A B} (m : M A) (k : A -> M B) :
  keeps m -> (forall a, keeps (k a)) -> keeps (bind m k).
Proof.
  intros Hm Hk s. rewrite bind_eq.
  eapply evolves_trans; [apply Hm|apply Hk].
Qed.

Lemma keeps_get : keeps get.
Proof. intros s. apply evolves_refl. Qed.

Ltac same_env_tac := unfold same_env; cbn; repeat split; reflexivity.

Lemma keeps_upd_self f :
  (forall c, _last_good_port (f c) = _last_good_port c) ->
  (forall c, _explicit_port (f c) = _explicit_port c) ->
  keeps (upd_self f).
Proof.
  intros Hg Hx s. split; cbn; try reflexivity; auto.
  - same_env_tac.
  - exists []. now rewrite app_nil_r.
  - exists []. split; [now rewrite app_nil_r|constructor].
Qed.

Lemma keeps_open_device port : keeps (open_device port).
Proof.
  intros s. split; cbn; try reflexivity.
  - same_env_tac.
  - now exists [port].
  - exists []. split; [now rewrite app_nil_r|constructor].
Qed.

Lemma keeps_read_clock : keeps read_clock.
Proof.
  intros s. split; cbn; try reflexivity.
  - same_env_tac.
  - exists []. now rewrite app_nil_r.
  - exists []. split; [now rewrite app_nil_r|constructor].
Qed.

Lemma keeps_try_connect port : keeps (try_connect port).
Proof.
  intros s. unfold try_connect. rewrite bind_eq. cbn.
  destruct (device_open (world s) (length (opens (world s))) port) as [msg|ident] eqn:E.
  - split; cbn; try reflexivity.
    + same_env_tac.
    + now exists [port].
    + exists []. split; [now rewrite app_nil_r|constructor].
  - split; cbn; try reflexivity.
    + same_env_tac.
    + now exists [port].
    + exists [port]. split; [reflexivity|].
      constructor; [|constructor].
      exists (length (opens (world s))), ident. cbn.
      split; [lia|]. split; [|exact E].
      apply list_lookup_middle. reflexivity.
    + intros H. apply (f_equal (@length _)) in H.
      rewrite length_app in H. cbn in H. lia.
Qed.

Lemma keeps_probe_port port timeout_s : keeps (_probe_port port timeout_s).
Proof.
  unfold _probe_port.
  apply keeps_bind; [apply keeps_get|]. intros s.
  apply keeps_bind; [apply keeps_read_clock|]. intros now.
  destruct (probed_recently _ _); [apply keeps_ret|].
  apply keeps_bind; [apply keeps_open_device|]. intros r.
  apply keeps_bind; [apply keeps_read_clock|]. intros t.
  apply keeps_bind; [|intros; apply keeps_ret].
  apply keeps_upd_self; reflexivity.
Qed.

Lemma keeps_probe_candidates l : keeps (probe_candidates l).
Proof.
  induction l as [|c r IH]; cbn [probe_candidates]; [apply keeps_ret|].
  apply keeps_bind; [apply keeps_probe_port|]. intros ok.
  apply keeps_bind; [exact IH|]. intros vs. apply keeps_ret.
Qed.

Lemma keeps_attempt b port : keeps (attempt b port).
Proof. destruct b; [apply keeps_try_connect|apply keeps_ret]. Qed.

Lemma keeps_connect_detected : keeps connect_detected.
Proof.
  unfold connect_detected.
  apply keeps_bind; [apply keeps_get|]. intros s.
  destruct (detect_candidates (world s)) as [msg|[|c0 cands]].
  - apply keeps_bind; [apply keeps_upd_self; reflexivity|intros; apply keeps_ret].
  - apply keeps_bind; [apply keeps_upd_self; reflexivity|intros; apply keeps_ret].
  - apply keeps_bind; [apply keeps_attempt|]. intros p.
    destruct (truthy p); [apply keeps_ret|].
    apply keeps_bind; [apply keeps_probe_candidates|]. intros vs.
    apply keeps_bind; [apply keeps_attempt|]. intros p'.
    destruct (truthy p'); apply keeps_ret.
Qed.

Lemma keeps_auto_connect : keeps auto_connect_or_candidates.
Proof.
  unfold auto_connect_or_candidates.
  apply keeps_bind; [apply keeps_upd_self; reflexivity|]. intros _.
  apply keeps_bind; [apply keeps_get|]. intros s.
  destruct (_dc (self s)); [apply keeps_ret|].
  apply keeps_bind; [apply keeps_attempt|]. intros p.
  destruct (truthy p); [apply keeps_ret|].
  apply keeps_bind; [apply keeps_attempt|]. intros p'.
  destruct (truthy p'); [apply keeps_ret|apply keeps_connect_detected].
Qed.

Lemma keeps_connect_single : keeps connect_autodetect_if_single.
Proof.
  unfold connect_autodetect_if_single.
  apply keeps_bind; [apply keeps_auto_connect|]. intros [port cands].
  destruct (truthy port); [apply keeps_ret|].
  destruct cands; [apply keeps_ret|].
  apply keeps_bind; [apply keeps_upd_self; reflexivity|intros; apply keeps_ret].
Qed.

End Frame.

(** ** Lifetime of a controller *)

Lemma evolves_step s o : evolves s (step s o).
Proof.
  destruct o; cbn [step].
  - apply keeps_try_connect.
  - apply keeps_auto_connect.
  - apply keeps_connect_single.
  - apply keeps_probe_port.
  - apply evolves_refl.
  - apply (keeps_upd_self (with_dc None)); reflexivity.
Qed.

Lemma evolves_run ops s : evolves s (run ops s).
Proof.
  revert s. induction ops as [|o r IH]; intros s; cbn.
  - apply evolves_refl.
  - eapply evolves_trans; [apply evolves_step|apply IH].
Qed.

(** C9: the constructor reads the preference file once; whatever is done
    with the controller afterwards, the file is never read again and is
    written only after a successful open of the port that is written; and
    a connect attempt that fails returns [None] and leaves the file, its
    access log and the in-memory last good port as they were. *)
Theorem preference_file_discipline (explicit : option string) (w : World)
    (ops : list op) (port : pyval) (msg : string) :
  let s0 := __init__ explicit w in
  let s := run ops s0 in
  device_open (world s) (length (opens (world s))) port = OpenRaises msg ->
  (fs_log (world s0) = fs_log w ++ [CacheRead] /\
   cache_file (world s0) = cache_file w /\
   _last_good_port (self s0) = loaded (cache_file w)) /\
  (exists ports,
     fs_log (world s) = fs_log (world s0) ++ map CacheWrite ports /\
     Forall (opened_between s0 s) ports) /\
  (fst (try_connect port s) = PNone /\
   cache_file (world (snd (try_connect port s))) = cache_file (world s) /\
   fs_log (world (snd (try_connect port s))) = fs_log (world s) /\
   _last_good_port (self (snd (try_connect port s))) = loaded (cache_file w)).
Proof.
  intros s0 s Hfail.
  assert (Hrun : evolves s0 s) by apply evolves_run.
  split; [repeat split|]. split; [apply (ev_log _ _ Hrun)|].
  unfold try_connect. rewrite bind_eq. cbn. rewrite Hfail. cbn.
  repeat split. apply (ev_last_good _ _ Hrun).
Qed.

Lemma preference_file_discipline_witness :
  fst (try_connect (PStr "/dev/ttyS0")
         (run [OpAutoConnect]
            (__init__ None (Samples.linux_closed
                              (Return [Samples.port_s0; Samples.port_s1])))))
  = PNone.
Proof.
  apply (preference_file_discipline None
           (Samples.linux_closed (Return [Samples.port_s0; Samples.port_s1]))
           [OpAutoConnect] (PStr "/dev/ttyS0") "could not open port").
  reflexivity.
Defined.

(** ** Probing *)

Section Probe.

Lemma probe_skipped port timeout_s s :
  throttled s port = true ->
  _probe_port port timeout_s s =
    (false, {| self := self s; world := with_ticks (S (ticks (world s))) (world s) |}).
Proof.
  unfold throttled, clock_now, last_probe, _probe_port, probed_recently.
  intros H. rewrite !bind_eq. cbn. rewrite H. reflexivity.
Qed.

Lemma probe_attempted port timeout_s s :
  throttled s port = false ->
  _probe_port port timeout_s s =
    (worker_ok (worker_in_time (world s) (length (opens (world s))) timeout_s)
               (device_open (world s) (length (opens (world s))) (PStr port)),
     {| self := with_probe_recent
                  (<[port := monotonic (world s) (S (ticks (world s)))]>
                     (_probe_recent (self s))) (self s);
        world := with_ticks (S (S (ticks (world s))))
                   (with_opens (opens (world s) ++ [PStr port]) (world s)) |}).
Proof.
  unfold throttled, clock_now, last_probe, _probe_port, probed_recently.
  intros H. rewrite !bind_eq. cbn. rewrite H. reflexivity.
Qed.

Lemma skipped_probes n port timeout_s s :
  (forall i, i < n ->
     probed_recently (monotonic (world s) (ticks (world s) + i))
                     (last_probe s port) = true) ->
  self (probes n port timeout_s s) = self s /\
  world (probes n port timeout_s s) = with_ticks (ticks (world s) + n) (world s).
Proof.
  induction n as [|n IH]; intros H.
  - cbn. rewrite Nat.add_0_r. now destruct s as [c []].
  - destruct IH as [IHs IHw]; [intros i Hi; apply H; lia|].
    cbn [probes]. rewrite probe_skipped.
    + cbn. rewrite IHs, IHw. split; [reflexivity|].
      cbn. now rewrite Nat.add_succ_r.
    + unfold throttled, clock_now, last_probe. rewrite IHs, IHw. cbn.
      apply H. lia.
Qed.

End Probe.

(** C7: when a probe of a path has run and recorded its time, a later
    probe of the same path whose clock reading is less than 5 seconds
    after that time returns [False] at once: no port is opened (so no
    transient session exists for it) and the recorded time stays. *)
Theorem second_probe_is_skipped (port : string) (t1 t2 : float) (s s2 : State) :
  let s1 := snd (_probe_port port t1 s) in
  let recorded := monotonic (world s) (S (ticks (world s))) in
  throttled s port = false ->
  _probe_recent (self s2) !! port = _probe_recent (self s1) !! port ->
  probed_recently (clock_now s2) recorded = true ->
  opens (world s1) = opens (world s) ++ [PStr port] /\
  _probe_recent (self s1) !! port = Some recorded /\
  fst (_probe_port port t2 s2) = false /\
  opens (world (snd (_probe_port port t2 s2))) = opens (world s2) /\
  _probe_recent (self (snd (_probe_port port t2 s2))) = _probe_recent (self s2).
Proof.
  intros s1 recorded Hfirst Hsame Hnear.
  assert (Hrec : _probe_recent (self s1) !! port = Some recorded).
  { unfold s1. rewrite (probe_attempted _ _ _ Hfirst). cbn.
    apply lookup_insert_eq. }
  split; [unfold s1; now rewrite (probe_attempted _ _ _ Hfirst)|].
  split; [exact Hrec|].
  rewrite probe_skipped; [now cbn|].
  unfold throttled, last_probe. now rewrite Hsame, Hrec.
Qed.

Lemma second_probe_is_skipped_witness :
  fst (_probe_port "/dev/ttyS0" 4%float
         (snd (_probe_port "/dev/ttyS0" 4%float
                 (__init__ None
                    (Samples.host "posix" "Linux"
                       (fun _ p => Opened (Samples.mesh_ident p))
                       Samples.quick_clock (Return [Samples.port_s0]))))))
  = false.
Proof.
  apply (second_probe_is_skipped "/dev/ttyS0" 4%float 4%float
           (__init__ None
              (Samples.host "posix" "Linux"
                 (fun _ p => Opened (Samples.mesh_ident p))
                 Samples.quick_clock (Return [Samples.port_s0])))).
  - reflexivity.
  - reflexivity.
  - reflexivity.
Defined.

(** C10: the time recorded for a path changes exactly when the port is
    really probed. A probe that the throttle skips leaves the record (and
    the log of opens) as it is; a probe that runs opens the port and
    records the clock reading taken after the join. Hence any number of
    skipped probes in a row leaves the record at the time of the last
    real attempt, and the first probe whose reading is not less than 5
    seconds after that time runs. *)
Theorem probe_record_updated_iff_attempted (port : string) (timeout_s : float)
    (s : State) (n : nat) :
  let s' := snd (_probe_port port timeout_s s) in
  (throttled s port = true ->
     fst (_probe_port port timeout_s s) = false /\
     _probe_recent (self s') = _probe_recent (self s) /\
     opens (world s') = opens (world s)) /\
  (throttled s port = false ->
     _probe_recent (self s') =
       <[port := monotonic (world s) (S (ticks (world s)))]> (_probe_recent (self s)) /\
     opens (world s') = opens (world s) ++ [PStr port]) /\
  ((forall i, i < n ->
      probed_recently (monotonic (world s) (ticks (world s) + i))
                      (last_probe s port) = true) ->
   let sn := probes n port timeout_s s in
   _probe_recent (self sn) = _probe_recent (self s) /\
   opens (world sn) = opens (world s) /\
   (probed_recently (monotonic (world s) (ticks (world s) + n))
                    (last_probe s port) = false ->
    opens (world (snd (_probe_port port timeout_s sn))) = opens (world s) ++ [PStr port])).
Proof.
  intros s'. split; [|split].
  - intros H. unfold s'. rewrite (probe_skipped _ _ _ H). now cbn.
  - intros H. unfold s'. rewrite (probe_attempted _ _ _ H). now cbn.
  - intros H sn. destruct (skipped_probes n port timeout_s s H) as [Hs Hw].
    fold sn in Hs, Hw.
    split; [now rewrite Hs|]. split; [now rewrite Hw|].
    intros Hfar. rewrite probe_attempted.
    + cbn. now rewrite Hw.
    + unfold throttled, clock_now, last_probe. now rewrite Hs, Hw.
Qed.

Lemma probe_record_updated_iff_attempted_witness :
  opens (world
           (snd (_probe_port "/dev/ttyS0" 4%float
                   (probes 4 "/dev/ttyS0" 4%float
                      (snd (_probe_port "/dev/ttyS0" 4%float
                              (__init__ None
                                 (Samples.host "posix" "Linux"
                                    (fun _ p => Opened (Samples.mesh_ident p))
                                    Samples.quick_clock
                                    (Return [Samples.port_s0])))))))))
  = [PStr "/dev/ttyS0"] ++ [PStr "/dev/ttyS0"].
Proof.
  refine (proj2 (proj2 (proj2 (proj2
           (probe_record_updated_iff_attempted "/dev/ttyS0" 4%float
              (snd (_probe_port "/dev/ttyS0" 4%float
                      (__init__ None
                         (Samples.host "posix" "Linux"
                            (fun _ p => Opened (Samples.mesh_ident p))
                            Samples.quick_clock
                            (Return [Samples.port_s0])))))
              4)) _)) _).
  - intros i Hi. do 4 (destruct i as [|i]; [reflexivity|]). lia.
  - reflexivity.
Defined.

(** ** The connect flow *)

Section Flow.

Lemma detect_candidates_same_env w w' :
  same_env w w' -> detect_candidates w' = detect_candidates w.
Proof.
  intros (Ho & Hp & Hc & _). unfold detect_candidates.
  now rewrite Ho, Hp, Hc.
Qed.

Lemma working_subset_cons c l : working_subset (c :: l) <> [].
Proof.
  unfold working_subset.
  destruct (List.filter _ (c :: l)); discriminate.
Qed.

Lemma try_connect_opened port s ident :
  device_open (world s) (length (opens (world s))) port = Opened ident ->
  try_connect port s =
    (port,
     {| self := with_dc (Some {| dc_port := port; dc_ident := ident |}) (self s);
        world :=
          with_file
            (written (cache_write (world s) (length (fs_log (world s)))) port
                     (cache_file (world s)))
            (fs_log (world s) ++ [CacheWrite port])
            (with_opens (opens (world s) ++ [port]) (world s)) |}).
Proof.
  intros H. unfold try_connect. rewrite bind_eq. cbn. rewrite H. reflexivity.
Qed.

Lemma try_connect_raises port s msg :
  device_open (world s) (length (opens (world s))) port = OpenRaises msg ->
  try_connect port s =
    (PNone,
     {| self := with_dc None (with_last_error (Some (open_failed msg)) (self s));
        world := with_opens (opens (world s) ++ [port]) (world s) |}).
Proof.
  intros H. unfold try_connect. rewrite bind_eq. cbn. rewrite H. reflexivity.
Qed.

(** What [try_connect] returns is the port or [None], and after a
    [None] from a failed open an [open_failed] record is in place. *)
Lemma try_connect_result port s :
  (fst (try_connect port s) = port /\
   exists ident, _dc (self (snd (try_connect port s)))
                 = Some {| dc_port := port; dc_ident := ident |}) \/
  (fst (try_connect port s) = PNone /\
   exists msg, _last_error (self (snd (try_connect port s)))
               = Some (open_failed msg)).
Proof.
  destruct (device_open (world s) (length (opens (world s))) port) as [msg|ident] eqn:E.
  - right. rewrite (try_connect_raises _ _ _ E). cbn. eauto.
  - left. rewrite (try_connect_opened _ _ _ E). cbn. eauto.
Qed.

(** The flow from a disconnected controller, step by step. *)
Lemma auto_connect_disconnected s :
  _dc (self s) = None ->
  let explicit := opt_str (_explicit_port (self s)) in
  let last_good := _last_good_port (self s) in
  let s0 := {| self := with_last_error None (self s); world := world s |} in
  let a1 := attempt (truthy explicit) explicit s0 in
  let a2 := attempt (truthy last_good) last_good (snd a1) in
  auto_connect_or_candidates s =
    if truthy (fst a1) then ((fst a1, []), snd a1)
    else if truthy (fst a2) then ((fst a2, []), snd a2)
    else connect_detected (snd a2).
Proof.
  intros Hdc. cbv zeta. unfold auto_connect_or_candidates.
  rewrite !bind_eq. cbn [fst snd upd_self get self world with_last_error
                         _dc _explicit_port _last_good_port].
  rewrite Hdc. rewrite bind_eq.
  destruct (truthy (fst (attempt _ _ _))); [reflexivity|].
  rewrite bind_eq.
  destruct (truthy (fst (attempt _ _ _))); reflexivity.
Qed.

Lemma connect_detected_eq s :
  connect_detected s =
    match detect_candidates (world s) with
    | Raise msg =>
        ((PNone, []),
         {| self := with_last_error (Some (open_failed msg)) (self s);
            world := world s |})
    | Return [] =>
        ((PNone, []),
         {| self := with_last_error (Some no_candidates) (self s);
            world := world s |})
    | Return ((c0 :: _) as cands) =>
        let cands_use := working_subset cands in
        let top := hd c0 cands_use in
        let a4 :=
          attempt ((length cands_use =? 1)%nat && (40 <=? score top)%Z)
                  (PStr (path top)) s in
        if truthy (fst a4) then ((fst a4, []), snd a4)
        else
          let pr := probe_candidates (take 3 cands_use) (snd a4) in
          let a5 :=
            attempt (length (fst pr) =? 1)%nat
                    (PStr (path (hd c0 (fst pr)))) (snd pr) in
          if truthy (fst a5) then ((fst a5, []), snd a5)
          else ((PNone, cands_use), snd a5)
    end.
Proof.
  unfold connect_detected. rewrite bind_eq. cbn [get fst snd].
  destruct (detect_candidates (world s)) as [msg|[|c0 cands]]; try reflexivity.
  cbv zeta. rewrite bind_eq.
  destruct (truthy (fst (attempt _ _ _))); [reflexivity|].
  rewrite !bind_eq.
  destruct (truthy (fst (attempt _ _ _))); reflexivity.
Qed.

Lemma attempt_error b port s :
  error_free_or_open_failed s ->
  error_free_or_open_failed (snd (attempt b port s)).
Proof.
  intros H. destruct b; [|exact H]. cbn [attempt].
  destruct (device_open (world s) (length (opens (world s))) port) as [msg|ident] eqn:E.
  - rewrite (try_connect_raises _ _ _ E). right. cbn. eauto.
  - rewrite (try_connect_opened _ _ _ E). exact H.
Qed.

Lemma probe_port_self port timeout_s s :
  _last_error (self (snd (_probe_port port timeout_s s))) = _last_error (self s).
Proof.
  destruct (throttled s port) eqn:E.
  - now rewrite (probe_skipped _ _ _ E).
  - now rewrite (probe_attempted _ _ _ E).
Qed.

Lemma probe_candidates_error l s :
  _last_error (self (snd (probe_candidates l s))) = _last_error (self s).
Proof.
  revert s. induction l as [|c r IH]; intros s; [reflexivity|].
  cbn [probe_candidates]. rewrite !bind_eq. cbn [ret snd].
  now rewrite IH, probe_port_self.
Qed.

Lemma connect_detected_outcome s :
  error_free_or_open_failed s ->
  outcome (snd (connect_detected s)) (fst (connect_detected s)).
Proof.
  intros Herr. rewrite connect_detected_eq.
  destruct (detect_candidates (world s)) as [msg|[|c0 cands]].
  - eapply NothingFound; cbn; eauto.
  - eapply NothingFound; cbn; eauto.
  - cbv zeta.
    set (a4 := attempt _ _ s).
    destruct (truthy (fst a4)) eqn:E4; [now apply Connected|].
    set (pr := probe_candidates _ (snd a4)).
    set (a5 := attempt _ _ (snd pr)).
    destruct (truthy (fst a5)) eqn:E5; [now apply Connected|].
    cbn [fst snd].
    destruct (working_subset (c0 :: cands)) as [|c l] eqn:Ew.
    + now destruct (working_subset_cons c0 cands).
    + apply Ambiguous. apply attempt_error.
      unfold error_free_or_open_failed, pr.
      rewrite probe_candidates_error.
      apply attempt_error, Herr.
Qed.

Lemma auto_connect_outcome s :
  _dc (self s) = None ->
  outcome (snd (auto_connect_or_candidates s)) (fst (auto_connect_or_candidates s)).
Proof.
  intros Hdc. rewrite (auto_connect_disconnected s Hdc). cbv zeta.
  set (a1 := attempt _ _ _).
  destruct (truthy (fst a1)) eqn:E1; [now apply Connected|].
  set (a2 := attempt _ _ (snd a1)).
  destruct (truthy (fst a2)) eqn:E2; [now apply Connected|].
  apply connect_detected_outcome.
  apply attempt_error, attempt_error. now left.
Qed.

End Flow.

(** C2: while a session is held, resolving twice in a row returns the
    same port both times (the port of the session's identity, or the
    explicit port when the identity names none) with no candidates; the
    environment is untouched, so no port is opened, and the session
    stays. *)
Theorem connected_resolve_is_idempotent (s : State) (dc : DeviceController) :
  _dc (self s) = Some dc ->
  let r1 := auto_connect_or_candidates s in
  let r2 := auto_connect_or_candidates (snd r1) in
  let port := py_or (dict_get (identity dc) "port")
                    (opt_str (_explicit_port (self s))) in
  fst r1 = (port, []) /\ fst r2 = (port, []) /\
  world (snd r1) = world s /\ world (snd r2) = world s /\
  opens (world (snd r2)) = opens (world s) /\
  _dc (self (snd r2)) = Some dc.
Proof.
  intros Hdc r1 r2 port.
  assert (H1 : r1 = ((port, []),
                     {| self := with_last_error None (self s); world := world s |})).
  { unfold r1, auto_connect_or_candidates. rewrite !bind_eq. cbn.
    rewrite Hdc. reflexivity. }
  assert (H2 : r2 = ((port, []),
                     {| self := with_last_error None (self s); world := world s |})).
  { unfold r2. rewrite H1. unfold auto_connect_or_candidates.
    rewrite !bind_eq. cbn. rewrite Hdc. reflexivity. }
  rewrite H1, H2. cbn. repeat split. exact Hdc.
Qed.

Lemma connected_resolve_is_idempotent_witness :
  fst (auto_connect_or_candidates
         (snd (auto_connect_or_candidates
                 (__init__ None (Samples.linux (Return [Samples.port_usb]))))))
  = (PStr "/dev/ttyUSB0", []).
Proof.
  apply (connected_resolve_is_idempotent
           (snd (auto_connect_or_candidates
                   (__init__ None (Samples.linux (Return [Samples.port_usb])))))
           {| dc_port := PStr "/dev/ttyUSB0";
              dc_ident := Samples.mesh_ident (PStr "/dev/ttyUSB0") |}).
  reflexivity.
Defined.

(** ** The single confident candidate *)

Section Single.

(** When steps 1 and 2 open nothing the flow goes on with the detection,
    in a state that differs by the opens made and the error recorded. *)
Lemma known_ports_fall_through s :
  _dc (self s) = None ->
  known_ports_fail s ->
  exists s1,
    auto_connect_or_candidates s = connect_detected s1 /\
    same_env (world s) (world s1) /\
    length (opens (world s1)) = length (opens (world s)) + known_attempts s /\
    fs_log (world s1) = fs_log (world s) /\
    cache_file (world s1) = cache_file (world s) /\
    _dc (self s1) = None.
Proof.
  intros Hdc [H1 H2].
  rewrite (auto_connect_disconnected s Hdc). cbv zeta.
  unfold known_attempts, explicit_attempts in *.
  destruct (truthy (opt_str (_explicit_port (self s)))) eqn:E1;
    destruct (truthy (_last_good_port (self s))) eqn:E2; cbn [attempt].
  - destruct (H1 eq_refl) as [m1 F1]. destruct (H2 eq_refl) as [m2 F2].
    rewrite Nat.add_0_r in F1.
    rewrite (try_connect_raises _ _ m1) by exact F1. cbn [fst snd truthy].
    rewrite (try_connect_raises _ _ m2)
      by (cbn; rewrite length_app; exact F2).
    cbn [fst snd truthy]. eexists. split; [reflexivity|].
    cbn. rewrite !length_app. cbn. repeat split; lia.
  - destruct (H1 eq_refl) as [m1 F1]. rewrite Nat.add_0_r in F1.
    rewrite (try_connect_raises _ _ m1) by exact F1. cbn [fst snd truthy ret].
    eexists. split; [reflexivity|].
    cbn. rewrite !length_app. cbn. repeat split; lia.
  - destruct (H2 eq_refl) as [m2 F2]. rewrite Nat.add_0_r in F2.
    cbn [fst snd truthy ret].
    rewrite (try_connect_raises _ _ m2) by exact F2. cbn [fst snd truthy].
    eexists. split; [reflexivity|].
    cbn. rewrite !length_app. cbn. repeat split; lia.
  - cbn [fst snd truthy ret]. eexists. split; [reflexivity|].
    cbn. repeat split; try lia. exact Hdc.
Qed.

End Single.

(** C1: the controller is not connected and the ports known beforehand
    (explicit, last good) are absent or fail to open, so that the flow
    reaches the detection. If exactly one non-Bluetooth candidate is left
    by the partition, its score is at least 40 and opening its port
    succeeds, then [auto_connect_or_candidates] returns that port with an
    empty candidate list and holds the session; the port is saved to the
    preference store: the file is written once with that port, and when
    the write goes through a load returns that port. *)
Theorem single_confident_candidate_connects (s : State)
    (cands : list candidate) (c : candidate) (ident : list (string * pyval)) :
  _dc (self s) = None ->
  known_ports_fail s ->
  detect_candidates (world s) = Return cands ->
  List.filter (fun c => negb (is_bluetooth c)) cands = [c] ->
  (40 <= score c)%Z ->
  path c <> "" ->
  device_open (world s) (length (opens (world s)) + known_attempts s)
              (PStr (path c)) = Opened ident ->
  let r := auto_connect_or_candidates s in
  let mode := cache_write (world s) (length (fs_log (world s))) in
  fst r = (PStr (path c), []) /\
  _dc (self (snd r)) = Some {| dc_port := PStr (path c); dc_ident := ident |} /\
  fs_log (world (snd r)) = fs_log (world s) ++ [CacheWrite (PStr (path c))] /\
  cache_file (world (snd r)) = written mode (PStr (path c)) (cache_file (world s)) /\
  (mode = WriteOk -> loaded (cache_file (world (snd r))) = PStr (path c)).
Proof.
  intros Hdc Hknown Hdet Hone Hscore Hpath Hopen r mode.
  destruct (known_ports_fall_through s Hdc Hknown)
    as (s1 & Hauto & Henv & Hlen & Hlog & Hfile & Hdc1).
  unfold r. rewrite Hauto, connect_detected_eq.
  rewrite (detect_candidates_same_env _ _ Henv), Hdet.
  destruct cands as [|c0 rest]; [discriminate|].
  assert (Hw : working_subset (c0 :: rest) = [c]).
  { unfold working_subset. now rewrite Hone. }
  cbv zeta. rewrite Hw. cbn [length hd Nat.eqb andb].
  replace (40 <=? score c)%Z with true by (symmetry; now apply Z.leb_le).
  cbn [attempt].
  assert (Hopen1 : device_open (world s1) (length (opens (world s1)))
                     (PStr (path c)) = Opened ident).
  { destruct Henv as (_ & _ & _ & -> & _). now rewrite Hlen. }
  rewrite (try_connect_opened _ _ _ Hopen1). cbn [fst snd truthy].
  replace (String.eqb (path c) "") with false
    by (symmetry; now apply String.eqb_neq).
  cbn [negb fst snd self world with_dc _dc with_file fs_log cache_file].
  destruct Henv as (_ & _ & _ & _ & _ & _ & Hcw).
  rewrite Hlog, Hfile, Hcw. fold mode.
  repeat split. intros ->. reflexivity.
Qed.

Lemma single_confident_candidate_connects_witness :
  fst (auto_connect_or_candidates
         (__init__ (Some "/dev/ttyACM7")
            (Samples.host "posix" "Linux" Samples.first_open_fails
               Samples.slow_clock
               (Return [Samples.port_bt; Samples.port_bad; Samples.port_usb]))))
  = (PStr "/dev/ttyUSB0", []).
Proof.
  refine (proj1 (single_confident_candidate_connects
           (__init__ (Some "/dev/ttyACM7")
              (Samples.host "posix" "Linux" Samples.first_open_fails
                 Samples.slow_clock
                 (Return [Samples.port_bt; Samples.port_bad; Samples.port_usb])))
           _ (Samples.parsed "posix" Samples.port_usb)
           (Samples.mesh_ident (PStr "/dev/ttyUSB0")) _ _ _ _ _ _ _)).
  - reflexivity.
  - split; intros H; [exists "no such device"; reflexivity|discriminate H].
  - reflexivity.
  - reflexivity.
  - vm_compute. discriminate.
  - vm_compute. discriminate.
  - reflexivity.
Defined.

(** ** Failures *)

Lemma attempt_same_env b port s : same_env (world s) (world (snd (attempt b port s))).
Proof. apply (ev_env _ _ (keeps_attempt b port s)). Qed.

Lemma detect_candidates_total w ports :
  comports w = Return ports ->
  exists out,
    detect_candidates w = Return out /\
    Permutation (map path out)
      (map device (List.filter (fun p => not_none (parse_port (os_name w) p)) ports)).
Proof.
  intros H. unfold detect_candidates. rewrite H. eexists. split; [reflexivity|].
  rewrite <- (scored_candidates_order (os_name w) (platform_system w)).
  apply Permutation_map. symmetry. apply sort_desc_perm.
Qed.




(** C6, as the code has it, from a disconnected controller. When
    [auto_connect_or_candidates] returns [(None, [])], the last error is a
    record with code [open_failed] or [no_candidates] and a detail. When
    it returns candidates for a selection it records nothing itself (the
    last error is absent, or what a failed open left). The record with
    code [multiple_candidates] that carries the candidate list is made by
    [connect_autodetect_if_single]: whenever that returns no port, the
    last error is present. *)
Theorem failed_resolution_leaves_error (s : State) :
  _dc (self s) = None ->
  let r := auto_connect_or_candidates s in
  let q := connect_autodetect_if_single s in
  (fst r = (PNone, []) ->
   exists e, _last_error (self (snd r)) = Some e /\
             (code e = "open_failed" \/ code e = "no_candidates")) /\
  (fst (fst r) = PNone -> snd (fst r) <> [] ->
   _last_error (self (snd r)) = None \/
   exists msg, _last_error (self (snd r)) = Some (open_failed msg)) /\
  (truthy (fst q) = false ->
   exists e, _last_error (self (snd q)) = Some e /\
     (snd (fst r) = [] -> code e = "open_failed" \/ code e = "no_candidates") /\
     (snd (fst r) <> [] -> e = multiple_candidates (snd (fst r)))).
Proof.
  intros Hdc r q.
  assert (Hout := auto_connect_outcome s Hdc). fold r in Hout.
  unfold q, connect_autodetect_if_single. rewrite bind_eq. fold r.
  destruct r as [[port cands] s1]. cbn [fst snd] in *.
  inversion Hout as [p Hp Hq|e He Hcode Hcands Hq|c l Herr Hq]; subst.
  - split; [intros [= -> ]; discriminate Hp|].
    split; [intros _ Hne; now destruct Hne|].
    rewrite Hp. cbn. intros Hf. rewrite Hp in Hf. discriminate Hf.
  - split; [intros _; eauto|].
    split; [intros _ Hne; now destruct Hne|].
    cbn. intros _. exists e. split; [exact He|].
    split; [auto|]. intros Hne; now destruct Hne.
  - split; [intros [= ]|].
    split; [intros _ _; exact Herr|].
    cbn. intros _. eexists. split; [reflexivity|].
    split; [intros [= ]|reflexivity].
Qed.

Lemma failed_resolution_leaves_error_witness :
  exists e,
    _last_error
      (self (snd (connect_autodetect_if_single
                    (__init__ None
                       (Samples.linux_closed
                          (Return [Samples.port_s0; Samples.port_s1]))))))
    = Some e /\ code e = "multiple_candidates".
Proof.
  destruct (failed_resolution_leaves_error
              (__init__ None
                 (Samples.linux_closed
                    (Return [Samples.port_s0; Samples.port_s1])))
              eq_refl) as (_ & _ & H).
  destruct (H eq_refl) as (e & He & _ & Hm).
  exists e. split; [exact He|].
  rewrite Hm; [reflexivity|]. vm_compute. discriminate.
Defined.

(** C6, as the claim has it, fails: two ports of low score, none of which
    answers a probe; [auto_connect_or_candidates] returns both for a
    selection, and the last-error query gives [None]. *)
Lemma ambiguous_resolution_records_no_error :
  map path
    (snd (fst (auto_connect_or_candidates
                 (__init__ None
                    (Samples.linux_closed
                       (Return [Samples.port_s0; Samples.port_s1]))))))
    = ["/dev/ttyS0"; "/dev/ttyS1"] /\
  fst (fst (auto_connect_or_candidates
              (__init__ None
                 (Samples.linux_closed
                    (Return [Samples.port_s0; Samples.port_s1])))))
    = PNone /\
  fst (last_error
         (snd (auto_connect_or_candidates
                 (__init__ None
                    (Samples.linux_closed
                       (Return [Samples.port_s0; Samples.port_s1]))))))
    = None.
Proof. repeat split. Qed.


(** * Further properties *)

(** ** Scoring *)

Lemma prefix_comparable a b s :
  String.prefix a s = true -> String.prefix b s = true ->
  String.prefix a b = true \/ String.prefix b a = true.
Proof.
  revert b s. induction a as [|x a IH]; intros b s Ha Hb;
    [left; now destruct b|].
  destruct b as [|y b]; [right; reflexivity|].
  destruct s as [|z s]; [discriminate|].
  cbn in *. destruct (ascii_dec x z) as [->|]; [|discriminate].
  destruct (ascii_dec y z) as [->|]; [|discriminate].
  destruct (ascii_dec z z); [|congruence]. now apply (IH b s).
Qed.

(** A path cannot follow the Linux USB/ACM convention and start with
    [/dev/tty.] at once. *)
Lemma tty_prefixes_exclusive dev :
  startswith dev "/dev/ttyUSB" || startswith dev "/dev/ttyACM" = true ->
  startswith dev "/dev/tty." = false.
Proof.
  unfold startswith. intros H.
  destruct (String.prefix "/dev/tty." dev) eqn:E; [|reflexivity].
  apply orb_true_iff in H as [H|H];
    destruct (prefix_comparable _ _ _ H E) as [F|F]; discriminate F.
Qed.

(** X1: whatever the port, a score that [_score_port] returns lies
    between -45 (Bluetooth and legacy, nothing else) and 85 (USB ids of a
    known vendor, a Linux USB path and a keyword): the two path bonuses
    exclude each other. *)
Theorem score_bounds (dev : string) (vid pid : option Z)
    (desc manu prod : pyval) (bt leg : bool) (s : Z) :
  _score_port dev vid pid desc manu prod bt leg = Some s ->
  (-45 <= s <= 85)%Z.
Proof.
  unfold _score_port.
  destruct (py_join " " _) as [t|]; [|discriminate].
  assert (Hx := tty_prefixes_exclusive dev).
  destruct (startswith dev "/dev/ttyUSB" || startswith dev "/dev/ttyACM");
    [rewrite (Hx eq_refl)|clear Hx];
    destruct (existsb _ keywords); intros [= <-];
    repeat case_match; lia.
Qed.

Lemma score_bounds_witness : (-45 <= 85 <= 85)%Z.
Proof.
  apply (score_bounds "/dev/ttyUSB0" (Some 0x10C4%Z) (Some 0xEA60%Z)
           (PStr "CP2102 USB to UART Bridge Controller")
           (PStr "Silicon Labs") PNone false false 85).
  reflexivity.
Defined.

(** X2: a port that reports both a vendor and a product id scores 50
    more than the same port without ids, and 70 more when the vendor is
    one of the four known bridge vendors. *)
Theorem usb_ids_raise_score (dev : string) (v q : Z)
    (desc manu prod : pyval) (bt leg : bool) (s : Z) :
  _score_port dev None None desc manu prod bt leg = Some s ->
  _score_port dev (Some v) (Some q) desc manu prod bt leg
    = Some (s + 50 + (if vid_known (Some v) then 20 else 0))%Z.
Proof.
  unfold _score_port.
  destruct (py_join " " _) as [t|]; [|discriminate].
  cbn [not_none andb vid_known].
  destruct (existsb _ keywords); intros [= <-]; f_equal;
    repeat case_match; lia.
Qed.

Lemma usb_ids_raise_score_witness :
  _score_port "COM3" (Some 0x0403%Z) (Some 0x6001%Z)
              (PStr "FT232R") PNone PNone false false
  = Some (0 + 50 + 20)%Z.
Proof.
  apply (usb_ids_raise_score "COM3" 0x0403%Z 0x6001%Z
           (PStr "FT232R") PNone PNone false false 0).
  reflexivity.
Defined.

(** ** Which ports are skipped *)

Section Parsing.

Lemma any_bluetooth_text v r :
  is_text v = true ->
  any_bluetooth (v :: r) = if names_bluetooth v then Some true else any_bluetooth r.
Proof.
  destruct v; cbn; intros H.
  - reflexivity.
  - apply negb_true_iff in H. now rewrite H.
  - apply negb_true_iff in H. now rewrite H.
  - destruct (String.eqb_spec s ""); [subst; reflexivity|reflexivity].
  - destruct l; [reflexivity|discriminate].
  - destruct kv; [reflexivity|discriminate].
Qed.

Lemma any_bluetooth_not_text v r :
  is_text v = false -> any_bluetooth (v :: r) = None.
Proof.
  destruct v; cbn; intros H; try discriminate.
  - apply negb_false_iff in H. now rewrite H.
  - apply negb_false_iff in H. now rewrite H.
  - destruct l; [discriminate|reflexivity].
  - destruct kv; [discriminate|reflexivity].
Qed.

Lemma py_or_text v :
  is_text v = true -> py_or v (PStr "") = PStr (str_of (py_or v (PStr ""))).
Proof.
  unfold py_or. destruct v; cbn; intros H.
  - reflexivity.
  - apply negb_true_iff in H. now rewrite H.
  - apply negb_true_iff in H. now rewrite H.
  - now destruct (negb (String.eqb s "")).
  - destruct l; [reflexivity|discriminate].
  - destruct kv; [reflexivity|discriminate].
Qed.

Lemma py_or_not_text v :
  is_text v = false -> strs_of [py_or v (PStr "")] = None.
Proof.
  unfold py_or. destruct v; cbn; intros H; try discriminate.
  - apply negb_false_iff in H. now rewrite H.
  - apply negb_false_iff in H. now rewrite H.
  - destruct l; [discriminate|reflexivity].
  - destruct kv; [discriminate|reflexivity].
Qed.

Lemma strs_of_app l1 l2 :
  strs_of (l1 ++ l2) =
  match strs_of l1, strs_of l2 with
  | Some a, Some b => Some (a ++ b)
  | _, _ => None
  end.
Proof.
  induction l1 as [|v r IH]; cbn.
  - now destruct (strs_of l2).
  - destruct v; try reflexivity. rewrite IH.
    destruct (strs_of r), (strs_of l2); reflexivity.
Qed.

Lemma score_port_none dev vid pid d m pr bt leg :
  _score_port dev vid pid d m pr bt leg = None <->
  is_text d && is_text m && is_text pr = false.
Proof.
  unfold _score_port, py_join.
  change [py_or d (PStr ""); py_or m (PStr ""); py_or pr (PStr "")]
    with ([py_or d (PStr "")] ++ [py_or m (PStr "")] ++ [py_or pr (PStr "")]).
  rewrite !strs_of_app.
  destruct (is_text d) eqn:Ed; [rewrite (py_or_text _ Ed)|rewrite (py_or_not_text _ Ed)];
    [|now split].
  destruct (is_text m) eqn:Em; [rewrite (py_or_text _ Em)|rewrite (py_or_not_text _ Em)];
    [|now split].
  destruct (is_text pr) eqn:Ep; [rewrite (py_or_text _ Ep)|rewrite (py_or_not_text _ Ep)];
    [|now split].
  cbn [strs_of option_map app]. case_match; split; discriminate.
Qed.

Lemma filter_truthy_text v :
  is_text v = true ->
  exists l, List.filter truthy [v] = map PStr l.
Proof.
  destruct v; cbn; intros H.
  - now exists [].
  - apply negb_true_iff in H. rewrite H. now exists [].
  - apply negb_true_iff in H. rewrite H. now exists [].
  - destruct (negb (String.eqb s "")); [now exists [s]|now exists []].
  - destruct l; [now exists []|discriminate].
  - destruct kv; [now exists []|discriminate].
Qed.

Lemma strs_of_map l : strs_of (map PStr l) = Some l.
Proof. induction l as [|x r IH]; cbn; [reflexivity|now rewrite IH]. Qed.

Lemma description_joins d m pr :
  is_text d = true -> is_text m = true -> is_text pr = true ->
  py_join " | " (List.filter truthy [d; m; pr]) <> None.
Proof.
  intros Hd Hm Hp.
  destruct (filter_truthy_text _ Hd) as [ld Ed].
  destruct (filter_truthy_text _ Hm) as [lm Em].
  destruct (filter_truthy_text _ Hp) as [lp Ep].
  change [d; m; pr] with ([d] ++ [m] ++ [pr]).
  rewrite !List.filter_app, Ed, Em, Ep, <- !map_app.
  unfold py_join. now rewrite strs_of_map.
Qed.

Lemma any_bluetooth_fields d m pr i :
  is_text d = true -> is_text m = true -> is_text pr = true ->
  any_bluetooth [d; m; pr; i] =
    if names_bluetooth d || names_bluetooth m || names_bluetooth pr
    then Some true
    else if is_text i then Some (names_bluetooth i) else None.
Proof.
  intros Hd Hm Hp.
  rewrite (any_bluetooth_text _ _ Hd), (any_bluetooth_text _ _ Hm),
          (any_bluetooth_text _ _ Hp).
  destruct (names_bluetooth d), (names_bluetooth m), (names_bluetooth pr);
    cbn [orb]; try reflexivity.
  destruct (is_text i) eqn:Ei.
  - rewrite (any_bluetooth_text _ _ Ei). cbn.
    now destruct (names_bluetooth i).
  - now apply any_bluetooth_not_text.
Qed.

End Parsing.

Lemma parse_port_none_iff (os : string) (p : ListPortInfo) :
  parse_port os p = None <-> well_formed p = false.
Proof.
  unfold parse_port, well_formed, shown_description.
  set (d := py_or (p_description p) (PStr (device p))).
  destruct (is_text d && is_text (p_manufacturer p) && is_text (p_product p)) eqn:E.
  - apply andb_true_iff in E as [E Hp]. apply andb_true_iff in E as [Hd Hm].
    rewrite (any_bluetooth_fields _ _ _ _ Hd Hm Hp). cbn [andb].
    assert (Hs : forall bt leg,
               _score_port (device p) (p_vid p) (p_pid p) d (p_manufacturer p)
                 (p_product p) bt leg <> None).
    { intros bt leg H. apply score_port_none in H. now rewrite Hd, Hm, Hp in H. }
    assert (Hj := description_joins _ _ _ Hd Hm Hp).
    rewrite <- !orb_assoc.
    destruct (names_bluetooth d
              || (names_bluetooth (p_manufacturer p)
                  || names_bluetooth (p_product p))).
    + rewrite orb_true_r.
      destruct (_score_port _ _ _ _ _ _ _ _) eqn:Es; [|now destruct (Hs _ _ Es)].
      destruct (py_join _ _); [|now destruct Hj]. split; discriminate.
    + rewrite orb_false_r.
      destruct (is_text (p_interface p)); [|now split].
      destruct (_score_port _ _ _ _ _ _ _ _) eqn:Es; [|now destruct (Hs _ _ Es)].
      destruct (py_join _ _); [|now destruct Hj]. split; discriminate.
  - split; [intros _|intros _].
    + destruct (is_text d), (is_text (p_manufacturer p)), (is_text (p_product p));
        try discriminate E; reflexivity.
    + destruct (any_bluetooth _); [|reflexivity].
      destruct (_score_port _ _ _ _ _ _ _ _) eqn:Es; [|reflexivity].
      assert (H : _score_port (device p) (p_vid p) (p_pid p) d (p_manufacturer p)
                    (p_product p) b
                    (String.eqb os "nt" && startswith (upper (device p)) "COM1")
                  = None) by now apply score_port_none.
      rewrite H in Es. discriminate Es.
Qed.

Lemma parse_port_well_formed os p :
  not_none (parse_port os p) = well_formed p.
Proof.
  destruct (parse_port os p) eqn:E, (well_formed p) eqn:W; try reflexivity.
  - apply (proj2 (parse_port_none_iff os p)) in W. congruence.
  - apply (proj1 (parse_port_none_iff os p)) in E. congruence.
Qed.

Lemma filter_ext_bool {A} (f g : A -> bool) l :
  (forall x, f x = g x) -> List.filter f l = List.filter g l.
Proof.
  intros H. induction l as [|x r IH]; cbn; [reflexivity|].
  now rewrite H, IH.
Qed.

(** X3: a port is skipped by [detect_candidates] exactly when it is not
    well formed: its description (or, when that is empty, its device
    name), manufacturer or product is a true value that is not a string,
    or its interface is one and no earlier attribute names Bluetooth. The
    list returned holds one entry for each well-formed port and nothing
    else. *)
Theorem detect_candidates_keeps_well_formed (w : World) (ports : list ListPortInfo) :
  comports w = Return ports ->
  (forall p, parse_port (os_name w) p = None <-> well_formed p = false) /\
  exists out,
    detect_candidates w = Return out /\
    Permutation (map path out) (map device (List.filter well_formed ports)).
Proof.
  intros H. split; [intros p; apply parse_port_none_iff|].
  destruct (detect_candidates_total w ports H) as (out & Hout & Hperm).
  exists out. split; [exact Hout|].
  rewrite Hperm. apply Permutation_map.
  rewrite (filter_ext_bool _ well_formed); [reflexivity|].
  intros p. apply parse_port_well_formed.
Qed.

Lemma detect_candidates_keeps_well_formed_witness :
  exists out,
    detect_candidates
      (Samples.linux (Return [Samples.port_s0; Samples.port_bad;
                              Samples.port_usb])) = Return out /\
    Permutation (map path out) ["/dev/ttyS0"; "/dev/ttyUSB0"].
Proof.
  apply (detect_candidates_keeps_well_formed
           (Samples.linux (Return [Samples.port_s0; Samples.port_bad;
                                   Samples.port_usb]))
           [Samples.port_s0; Samples.port_bad; Samples.port_usb]).
  reflexivity.
Defined.

Lemma plain_port_well_formed p : plain_port p = true -> well_formed p = true.
Proof.
  unfold plain_port, well_formed, shown_description. intros H.
  apply andb_true_iff in H as [H Hi]. apply andb_true_iff in H as [H Hp].
  apply andb_true_iff in H as [Hd Hm].
  rewrite Hm, Hp, Hi. cbn [orb andb]. rewrite !andb_true_r.
  unfold py_or. destruct (truthy (p_description p)); [exact Hd|reflexivity].
Qed.

(** X4: when every text attribute of every enumerated port is a string
    or a false value (what pyserial yields), no port is skipped:
    [detect_candidates] returns exactly one entry per port. *)
Theorem plain_ports_all_listed (w : World) (ports : list ListPortInfo) :
  comports w = Return ports ->
  forallb plain_port ports = true ->
  exists out,
    detect_candidates w = Return out /\
    length out = length ports /\
    Permutation (map path out) (map device ports).
Proof.
  intros H Hplain.
  destruct (detect_candidates_total w ports H) as (out & Hout & Hperm).
  assert (Hall : List.filter (fun p => not_none (parse_port (os_name w) p)) ports = ports).
  { clear -Hplain. induction ports as [|p r IH]; [reflexivity|].
    cbn in Hplain |- *. apply andb_true_iff in Hplain as [Hp Hr].
    rewrite parse_port_well_formed, (plain_port_well_formed _ Hp).
    now rewrite (IH Hr). }
  rewrite Hall in Hperm.
  exists out. split; [exact Hout|]. split; [|exact Hperm].
  apply Permutation_length in Hperm. now rewrite !length_map in Hperm.
Qed.

Lemma plain_ports_all_listed_witness :
  exists out,
    detect_candidates
      (Samples.linux (Return [Samples.port_s0; Samples.port_bt;
                              Samples.port_usb])) = Return out /\
    length out = 3.
Proof.
  destruct (plain_ports_all_listed
              (Samples.linux (Return [Samples.port_s0; Samples.port_bt;
                                      Samples.port_usb]))
              [Samples.port_s0; Samples.port_bt; Samples.port_usb]
              eq_refl eq_refl) as (out & Hout & Hlen & _).
  exists out. split; [exact Hout|exact Hlen].
Defined.

(** X5: the flags of an entry. It is marked Bluetooth exactly when the
    description (the device name if the description is empty), the
    manufacturer, the product or the interface is a string containing
    "bluetooth" in any case; it is marked legacy exactly on Windows when
    the upper-cased device name starts with COM1, which COM10 to COM19 do
    as well. *)
Theorem flags_of_parsed_port (os : string) (p : ListPortInfo) (c : candidate) :
  parse_port os p = Some c ->
  path c = device p /\
  is_bluetooth c =
    names_bluetooth (shown_description p) || names_bluetooth (p_manufacturer p)
    || names_bluetooth (p_product p) || names_bluetooth (p_interface p) /\
  is_legacy c = String.eqb os "nt" && startswith (upper (device p)) "COM1".
Proof.
  intros H. split; [now apply parse_port_path in H|].
  assert (W : well_formed p = true).
  { destruct (well_formed p) eqn:W; [reflexivity|].
    apply (proj2 (parse_port_none_iff os p)) in W. congruence. }
  unfold well_formed in W. fold (shown_description p) in *.
  apply andb_true_iff in W as [W Hi]. apply andb_true_iff in W as [W Hp].
  apply andb_true_iff in W as [Hd Hm].
  unfold parse_port in H. fold (shown_description p) in H.
  rewrite (any_bluetooth_fields _ _ _ _ Hd Hm Hp) in H.
  destruct (names_bluetooth (shown_description p) || names_bluetooth (p_manufacturer p)
            || names_bluetooth (p_product p)) eqn:Eh.
  - destruct (_score_port _ _ _ _ _ _ _ _); [|discriminate].
    destruct (py_join _ _); [|discriminate].
    injection H as <-. cbn [is_bluetooth is_legacy]. now split.
  - apply orb_false_iff in Eh as [Eh E3]. apply orb_false_iff in Eh as [E1 E2].
    rewrite E1, E2, E3, !orb_false_r in Hi. rewrite Hi in H.
    destruct (_score_port _ _ _ _ _ _ _ _); [|discriminate].
    destruct (py_join _ _); [|discriminate].
    injection H as <-. cbn [is_bluetooth is_legacy]. now split.
Qed.

Lemma flags_of_parsed_port_witness :
  is_legacy (Samples.parsed "nt" Samples.port_com12) = true.
Proof.
  refine (eq_trans (proj2 (proj2 (flags_of_parsed_port "nt" Samples.port_com12
            (Samples.parsed "nt" Samples.port_com12) _))) _);
    reflexivity.
Defined.

(** ** The two device names of a macOS port *)

Section Darwin.

Variable x : string.

Lemma tty_prefix_facts :
  startswith ("/dev/tty." +:+ x) "/dev/ttyUSB" = false /\
  startswith ("/dev/tty." +:+ x) "/dev/ttyACM" = false /\
  startswith ("/dev/tty." +:+ x) "/dev/tty." = true /\
  startswith ("/dev/tty." +:+ x) "/dev/cu." = false /\
  startswith (upper ("/dev/tty." +:+ x)) "COM1" = false.
Proof. repeat split; destruct x; reflexivity. Qed.

Lemma cu_prefix_facts :
  startswith ("/dev/cu." +:+ x) "/dev/ttyUSB" = false /\
  startswith ("/dev/cu." +:+ x) "/dev/ttyACM" = false /\
  startswith ("/dev/cu." +:+ x) "/dev/tty." = false /\
  startswith ("/dev/cu." +:+ x) "/dev/cu." = true /\
  startswith (upper ("/dev/cu." +:+ x)) "COM1" = false.
Proof. repeat split; destruct x; reflexivity. Qed.

Lemma score_tty_cu vid pid d m pr bt :
  _score_port ("/dev/tty." +:+ x) vid pid d m pr bt false =
  option_map (fun s => (s + 5)%Z)
    (_score_port ("/dev/cu." +:+ x) vid pid d m pr bt false).
Proof.
  destruct tty_prefix_facts as (T1 & T2 & T3 & _).
  destruct cu_prefix_facts as (C1 & C2 & C3 & _).
  unfold _score_port. rewrite T1, T2, T3, C1, C2, C3. cbn [orb].
  destruct (py_join " " _) as [t|]; [|reflexivity].
  destruct (existsb _ keywords); cbn [option_map]; f_equal;
    repeat case_match; lia.
Qed.

End Darwin.

(** The two entries made of one port under its two macOS device names,
    before and after both platform passes. *)
Lemma tty_cu_gap_after_passes (os sys x : string) (p : ListPortInfo)
    (c_tty c_cu : candidate) :
  truthy (p_description p) = true ->
  parse_port os (with_device ("/dev/tty." +:+ x) p) = Some c_tty ->
  parse_port os (with_device ("/dev/cu." +:+ x) p) = Some c_cu ->
  score c_tty = (score c_cu + 5)%Z /\
  score (platform_adjust os sys c_tty) =
    (score (platform_adjust os sys c_cu) + 5
     + (if String.eqb (lower sys) "darwin" then 7 else 0))%Z.
Proof.
  intros Hd Ht Hc.
  destruct (tty_prefix_facts x) as (_ & _ & T3 & T4 & T5).
  destruct (cu_prefix_facts x) as (_ & _ & C3 & C4 & C5).
  unfold parse_port in Ht, Hc.
  cbn [with_device device p_description p_manufacturer p_product
       p_serial_number p_vid p_pid p_hwid p_interface] in Ht, Hc.
  unfold py_or in Ht, Hc. rewrite Hd in Ht, Hc.
  rewrite T5, C5, !andb_false_r in *.
  destruct (any_bluetooth _) as [b|]; [|discriminate].
  rewrite score_tty_cu in Ht.
  destruct (_score_port _ _ _ _ _ _ _ _) as [sc|]; [|discriminate].
  cbn [option_map] in Ht.
  destruct (py_join " | " _) as [dj|]; [|discriminate].
  injection Ht as <-. injection Hc as <-.
  split; [reflexivity|].
  unfold platform_adjust, adjust_darwin, adjust_nt.
  destruct (String.eqb (lower sys) "darwin"), (String.eqb os "nt");
    cbn [path set_score score is_bluetooth];
    rewrite ?T3, ?T4, ?C3, ?C4;
    cbn [path set_score score is_bluetooth];
    rewrite ?T3, ?T4, ?C3, ?C4;
    destruct b; cbn [path set_score score is_bluetooth]; lia.
Qed.

(** X6: a port whose description is not empty, listed under its two
    macOS device names in one enumeration. [_score_port] gives the
    [/dev/tty.] name 5 points more than the [/dev/cu.] name. In the list
    that [detect_candidates] returns the [/dev/tty.] entry stands before
    its twin; on macOS, where the platform pass adds 5 to the one and
    takes 2 from the other, its final score is 12 points above the
    twin's, and 5 points above on any other system. *)
Theorem tty_twin_outranks_cu (w : World) (ports : list ListPortInfo)
    (x : string) (p : ListPortInfo) (c_tty c_cu : candidate) :
  comports w = Return ports ->
  truthy (p_description p) = true ->
  In (with_device ("/dev/tty." +:+ x) p) ports ->
  In (with_device ("/dev/cu." +:+ x) p) ports ->
  scored_candidates (os_name w) (platform_system w)
    [with_device ("/dev/tty." +:+ x) p] = [c_tty] ->
  scored_candidates (os_name w) (platform_system w)
    [with_device ("/dev/cu." +:+ x) p] = [c_cu] ->
  (exists s,
     _score_port ("/dev/cu." +:+ x) (p_vid p) (p_pid p) (p_description p)
                 (p_manufacturer p) (p_product p)
                 (is_bluetooth c_cu) (is_legacy c_cu) = Some s /\
     _score_port ("/dev/tty." +:+ x) (p_vid p) (p_pid p) (p_description p)
                 (p_manufacturer p) (p_product p)
                 (is_bluetooth c_tty) (is_legacy c_tty) = Some (s + 5)%Z) /\
  score c_tty =
    (score c_cu + 5
     + (if String.eqb (lower (platform_system w)) "darwin" then 7 else 0))%Z /\
  exists out, detect_candidates w = Return out /\ before c_tty c_cu out.
Proof.
  intros Hports Hd Hint Hinc Ht Hc.
  assert (Hgap : score c_tty =
    (score c_cu + 5
     + (if String.eqb (lower (platform_system w)) "darwin" then 7 else 0))%Z).
  { apply scored_single in Ht as (t0 & Ht0 & ->).
    apply scored_single in Hc as (u0 & Hu0 & ->).
    exact (proj2 (tty_cu_gap_after_passes _ _ x p t0 u0 Hd Ht0 Hu0)). }
  split; [|split; [exact Hgap|]].
  - apply scored_single in Ht as (t0 & Ht0 & ->).
    apply scored_single in Hc as (u0 & Hu0 & ->).
    rewrite !platform_adjust_legacy,
      !(proj1 (platform_adjust_fields _ _ _)).
    destruct (tty_prefix_facts x) as (_ & _ & _ & _ & T5).
    destruct (cu_prefix_facts x) as (_ & _ & _ & _ & C5).
    unfold parse_port in Ht0, Hu0.
    cbn [with_device device p_description p_manufacturer p_product
         p_serial_number p_vid p_pid p_hwid p_interface] in Ht0, Hu0.
    unfold py_or in Ht0, Hu0. rewrite Hd in Ht0, Hu0.
    rewrite T5, C5, !andb_false_r in *.
    destruct (any_bluetooth _) as [b|]; [|discriminate].
    destruct (_score_port ("/dev/cu." +:+ x) _ _ _ _ _ _ _) as [sc|] eqn:Es;
      [|discriminate].
    rewrite score_tty_cu, Es in Ht0. cbn [option_map] in Ht0.
    destruct (py_join " | " _) as [dj|]; [|discriminate].
    injection Ht0 as <-. injection Hu0 as <-. cbn [is_bluetooth is_legacy].
    exists sc. split; [exact Es|].
    rewrite score_tty_cu, Es. reflexivity.
  - pose (out := sort_desc (scored_candidates (os_name w) (platform_system w) ports)).
    assert (Hout : detect_candidates w = Return out)
      by (unfold detect_candidates; rewrite Hports; reflexivity).
    exists out. split; [exact Hout|].
    assert (Hne : c_tty <> c_cu).
    { intros E. rewrite E in Hgap. destruct (String.eqb _ "darwin"); lia. }
    destruct (before_or c_tty c_cu out Hne) as [Hb|Hb]; [| |exact Hb|].
    + apply (detect_candidates_In w ports out c_tty Hports Hout).
      apply scored_In. eauto.
    + apply (detect_candidates_In w ports out c_cu Hports Hout).
      apply scored_In. eauto.
    + apply (sorted_before _ _ _ (sort_desc_sorted _)) in Hb.
      destruct (String.eqb _ "darwin"); lia.
Qed.

Lemma tty_twin_outranks_cu_witness :
  let tty := with_device ("/dev/tty." +:+ "usbserial-0001") Samples.port_usb in
  let cu := with_device ("/dev/cu." +:+ "usbserial-0001") Samples.port_usb in
  let w := Samples.host "posix" "Darwin"
             (fun _ p => Opened (Samples.mesh_ident p)) Samples.slow_clock
             (Return [cu; Samples.port_s0; tty]) in
  score (Samples.listed "posix" "Darwin" tty)
  = (score (Samples.listed "posix" "Darwin" cu) + 5 + 7)%Z /\
  exists out,
    detect_candidates w = Return out /\
    before (Samples.listed "posix" "Darwin" tty)
           (Samples.listed "posix" "Darwin" cu) out.
Proof.
  intros tty cu w.
  refine (proj2 (tty_twin_outranks_cu w [cu; Samples.port_s0; tty]
            "usbserial-0001" Samples.port_usb
            (Samples.listed "posix" "Darwin" tty)
            (Samples.listed "posix" "Darwin" cu) _ _ _ _ _ _));
    try reflexivity.
  - right. right. left. reflexivity.
  - left. reflexivity.
Defined.

(** ** The working subset *)

Lemma filter_sublist_bool {A} (f : A -> bool) l : sublist (List.filter f l) l.
Proof.
  induction l as [|x r IH]; cbn; [constructor|].
  destruct (f x); now constructor.
Qed.


Lemma working_subset_prefers_wired_sub (cands : list candidate) :
  (cands <> [] -> working_subset cands <> []) /\
  sublist (working_subset cands) cands.
Proof.
  unfold working_subset.
  destruct (List.filter (fun c => negb (is_bluetooth c)) cands) as [|x l] eqn:E.
  - split; [auto|reflexivity].
  - rewrite <- E. split; [intros _; rewrite E; discriminate|].
    apply filter_sublist_bool.
Qed.


(** ** The order of the strategies *)

(** X8: a configured explicit port is tried before anything else. When
    it opens, the call returns it with no candidates after that single
    open: the session is held, the port is saved, no error is recorded,
    and neither the last good port nor the enumeration is consulted
    (the statement holds whatever [comports()] would do). *)
Theorem explicit_port_first (s : State) (p : string)
    (ident : list (string * pyval)) :
  _dc (self s) = None ->
  _explicit_port (self s) = Some p ->
  p <> "" ->
  device_open (world s) (length (opens (world s))) (PStr p) = Opened ident ->
  let r := auto_connect_or_candidates s in
  fst r = (PStr p, []) /\
  opens (world (snd r)) = opens (world s) ++ [PStr p] /\
  ticks (world (snd r)) = ticks (world s) /\
  _dc (self (snd r)) = Some {| dc_port := PStr p; dc_ident := ident |} /\
  fs_log (world (snd r)) = fs_log (world s) ++ [CacheWrite (PStr p)] /\
  _last_error (self (snd r)) = None.
Proof.
  intros Hdc Hx Hp Hopen r. unfold r.
  rewrite (auto_connect_disconnected s Hdc). cbv zeta.
  rewrite Hx. cbn [opt_str truthy].
  replace (String.eqb p "") with false by (symmetry; now apply String.eqb_neq).
  cbn [negb attempt].
  rewrite (try_connect_opened _ _ ident) by exact Hopen.
  cbn [fst snd truthy].
  replace (String.eqb p "") with false by (symmetry; now apply String.eqb_neq).
  cbn. repeat split.
Qed.

Lemma explicit_port_first_witness :
  fst (auto_connect_or_candidates
         (__init__ (Some "/dev/ttyACM7")
            (Samples.linux (Raise "comports failed"))))
  = (PStr "/dev/ttyACM7", []).
Proof.
  apply (explicit_port_first
           (__init__ (Some "/dev/ttyACM7")
              (Samples.linux (Raise "comports failed")))
           "/dev/ttyACM7" (Samples.mesh_ident (PStr "/dev/ttyACM7"))).
  - reflexivity.
  - reflexivity.
  - discriminate.
  - reflexivity.
Defined.

(** X9: the last good port comes second. When no explicit port is
    configured or opening it raises, and the last good port opens, the
    call returns the last good port with no candidates, holds the session
    and saves the port again. If the explicit port has failed before, its
    [open_failed] record stays as the last error although the call has
    connected. *)
Theorem last_good_port_second (s : State) (ident : list (string * pyval)) :
  _dc (self s) = None ->
  (truthy (opt_str (_explicit_port (self s))) = true ->
   fails_to_open s 0 (opt_str (_explicit_port (self s)))) ->
  truthy (_last_good_port (self s)) = true ->
  device_open (world s) (length (opens (world s)) + explicit_attempts s)
              (_last_good_port (self s)) = Opened ident ->
  let r := auto_connect_or_candidates s in
  let lg := _last_good_port (self s) in
  fst r = (lg, []) /\
  _dc (self (snd r)) = Some {| dc_port := lg; dc_ident := ident |} /\
  fs_log (world (snd r)) = fs_log (world s) ++ [CacheWrite lg] /\
  length (opens (world (snd r))) =
    length (opens (world s)) + explicit_attempts s + 1 /\
  (truthy (opt_str (_explicit_port (self s))) = false ->
   _last_error (self (snd r)) = None) /\
  (truthy (opt_str (_explicit_port (self s))) = true ->
   exists msg, _last_error (self (snd r)) = Some (open_failed msg)).
Proof.
  intros Hdc Hx Hlg Hopen r lg. unfold r, lg.
  rewrite (auto_connect_disconnected s Hdc). cbv zeta.
  unfold explicit_attempts in *.
  destruct (truthy (opt_str (_explicit_port (self s)))) eqn:E; cbn [attempt].
  - destruct (Hx eq_refl) as [msg F]. rewrite Nat.add_0_r in F.
    rewrite (try_connect_raises _ _ msg) by exact F.
    cbn [fst snd truthy]. rewrite Hlg. cbn [attempt].
    rewrite (try_connect_opened _ _ ident)
      by (cbn; rewrite length_app; exact Hopen).
    cbn [fst snd]. rewrite Hlg. cbn. rewrite !length_app. cbn.
    repeat split; try lia; try (intros; discriminate); eauto.
  - cbn [ret fst snd truthy]. rewrite Hlg. cbn [attempt].
    rewrite Nat.add_0_r in Hopen.
    rewrite (try_connect_opened _ _ ident) by exact Hopen.
    cbn [fst snd]. rewrite Hlg. cbn. rewrite !length_app. cbn.
    repeat split; try lia; try (intros; discriminate); eauto.
Qed.

Lemma last_good_port_second_witness :
  fst (auto_connect_or_candidates
         {| self := {| _explicit_port := Some "/dev/ttyACM7"; _dc := None;
                       _last_error := None;
                       _last_good_port := PStr "/dev/ttyUSB0";
                       _probe_recent := ∅ |};
            world := Samples.host "posix" "Linux" Samples.first_open_fails
                       Samples.slow_clock (Return []) |})
  = (PStr "/dev/ttyUSB0", []).
Proof.
  refine (proj1 (last_good_port_second
           {| self := {| _explicit_port := Some "/dev/ttyACM7"; _dc := None;
                         _last_error := None;
                         _last_good_port := PStr "/dev/ttyUSB0";
                         _probe_recent := ∅ |};
              world := Samples.host "posix" "Linux" Samples.first_open_fails
                         Samples.slow_clock (Return []) |}
           (Samples.mesh_ident (PStr "/dev/ttyUSB0")) _ _ _ _)).
  - reflexivity.
  - intros _. exists "no such device". reflexivity.
  - reflexivity.
  - reflexivity.
Defined.

Lemma no_well_formed_port os ports :
  List.filter well_formed ports = [] -> omap (parse_port os) ports = [].
Proof.
  induction ports as [|p r IH]; [reflexivity|].
  cbn [List.filter omap list_omap]. intros H.
  destruct (well_formed p) eqn:W; [discriminate|].
  apply (proj2 (parse_port_none_iff os p)) in W. rewrite W. now apply IH.
Qed.

(** X10: nothing to choose from. When the flow reaches the enumeration
    and no enumerated port is well formed (among others: no port at
    all), the call returns [(None, [])] with the last error
    [no_candidates]; nothing is probed or opened beyond the ports known
    beforehand, and the preference file is left alone. *)
Theorem no_candidates_found (s : State) (ports : list ListPortInfo) :
  _dc (self s) = None ->
  known_ports_fail s ->
  comports (world s) = Return ports ->
  List.filter well_formed ports = [] ->
  let r := auto_connect_or_candidates s in
  fst r = (PNone, []) /\
  _last_error (self (snd r)) = Some no_candidates /\
  _dc (self (snd r)) = None /\
  length (opens (world (snd r))) = length (opens (world s)) + known_attempts s /\
  fs_log (world (snd r)) = fs_log (world s) /\
  cache_file (world (snd r)) = cache_file (world s).
Proof.
  intros Hdc Hknown Hports Hnone r.
  destruct (known_ports_fall_through s Hdc Hknown)
    as (s1 & Hauto & Henv & Hlen & Hlog & Hfile & Hdc1).
  unfold r. rewrite Hauto, connect_detected_eq.
  rewrite (detect_candidates_same_env _ _ Henv).
  unfold detect_candidates, scored_candidates. rewrite Hports.
  rewrite (no_well_formed_port _ _ Hnone).
  replace (sort_desc _) with (@nil candidate)
    by (repeat case_match; reflexivity).
  cbn. repeat split; assumption.
Qed.

Lemma no_candidates_found_witness :
  _last_error
    (self (snd (auto_connect_or_candidates
                  (__init__ None (Samples.linux (Return [Samples.port_bad]))))))
  = Some no_candidates.
Proof.
  refine (proj1 (proj2 (no_candidates_found
           (__init__ None (Samples.linux (Return [Samples.port_bad])))
           [Samples.port_bad] _ _ _ _))).
  - reflexivity.
  - split; intros H; discriminate H.
  - reflexivity.
  - reflexivity.
Defined.

(** X11: whenever a call from a disconnected controller returns
    candidates, no port is returned with them, the enumeration has
    succeeded, and the candidates are exactly the working subset of what
    [detect_candidates] returns: the full ranked list of non-Bluetooth
    candidates, not only the three that were probed. *)
Theorem returned_candidates_are_working_subset (s : State) :
  _dc (self s) = None ->
  let r := auto_connect_or_candidates s in
  snd (fst r) <> [] ->
  fst (fst r) = PNone /\
  exists cands,
    detect_candidates (world s) = Return cands /\
    snd (fst r) = working_subset cands.
Proof.
  intros Hdc r. unfold r.
  rewrite (auto_connect_disconnected s Hdc). cbv zeta.
  set (a1 := attempt _ _ _).
  destruct (truthy (fst a1)); [intros H; now destruct H|].
  set (a2 := attempt _ _ (snd a1)).
  destruct (truthy (fst a2)); [intros H; now destruct H|].
  assert (He : same_env (world s) (world (snd a2))).
  { eapply same_env_trans; [|apply attempt_same_env].
    apply (attempt_same_env _ _ {| self := with_last_error None (self s);
                                   world := world s |}). }
  rewrite connect_detected_eq, (detect_candidates_same_env _ _ He).
  destruct (detect_candidates (world s)) as [msg|[|c0 cands]];
    try (intros H; now destruct H).
  cbv zeta.
  destruct (truthy (fst (attempt _ _ (snd a2)))); [intros H; now destruct H|].
  destruct (truthy (fst (attempt _ _ _))); [intros H; now destruct H|].
  cbn [fst snd]. intros _. split; [reflexivity|]. now eexists.
Qed.

Lemma returned_candidates_are_working_subset_witness :
  fst (fst (auto_connect_or_candidates
              (__init__ None
                 (Samples.linux_closed
                    (Return [Samples.port_s0; Samples.port_bt;
                             Samples.port_s1])))))
  = PNone.
Proof.
  refine (proj1 (returned_candidates_are_working_subset
           (__init__ None
              (Samples.linux_closed
                 (Return [Samples.port_s0; Samples.port_bt; Samples.port_s1])))
           _ _)).
  - reflexivity.
  - vm_compute. discriminate.
Defined.

(** ** Session and result *)

Section Session.

Lemma attempt_truthy b port s :
  truthy (fst (attempt b port s)) = true ->
  fst (attempt b port s) = port /\
  exists ident,
    _dc (self (snd (attempt b port s)))
    = Some {| dc_port := port; dc_ident := ident |}.
Proof.
  destruct b; cbn [attempt]; [|discriminate].
  destruct (try_connect_result port s) as [[-> H]|[-> _]]; [|discriminate].
  intros _. now split.
Qed.

Lemma attempt_falsy b port s :
  truthy port = true -> _dc (self s) = None ->
  truthy (fst (attempt b port s)) = false ->
  _dc (self (snd (attempt b port s))) = None.
Proof.
  intros Hp Hdc. destruct b; cbn [attempt]; [|intros _; exact Hdc].
  destruct (device_open (world s) (length (opens (world s))) port) as [msg|ident] eqn:E.
  - now rewrite (try_connect_raises _ _ _ E).
  - rewrite (try_connect_opened _ _ _ E). cbn [fst]. congruence.
Qed.

Lemma probe_port_dc port t s :
  _dc (self (snd (_probe_port port t s))) = _dc (self s).
Proof.
  destruct (throttled s port) eqn:E.
  - now rewrite (probe_skipped _ _ _ E).
  - now rewrite (probe_attempted _ _ _ E).
Qed.

Lemma probe_candidates_dc l s :
  _dc (self (snd (probe_candidates l s))) = _dc (self s).
Proof.
  revert s. induction l as [|c r IH]; intros s; [reflexivity|].
  cbn [probe_candidates]. rewrite !bind_eq. cbn [ret snd].
  now rewrite IH, probe_port_dc.
Qed.

(** The verified entries are marked copies of probed entries. *)
Lemma probe_candidates_from l s :
  Forall (fun v => exists c, In c l /\ v = set_verified c)
         (fst (probe_candidates l s)).
Proof.
  revert s. induction l as [|c r IH]; intros s; [constructor|].
  cbn [probe_candidates]. rewrite !bind_eq. cbn [ret fst].
  assert (Hr : Forall (fun v => exists c0, In c0 (c :: r) /\ v = set_verified c0)
                 (fst (probe_candidates r (snd (_probe_port (path c) 4%float s))))).
  { eapply List.Forall_impl; [|apply IH].
    intros v (c0 & Hin & ->). exists c0. split; [now right|reflexivity]. }
  destruct (fst (_probe_port (path c) 4%float s)); [|exact Hr].
  constructor; [|exact Hr]. exists c. split; [now left|reflexivity].
Qed.

Lemma hd_paths (P : candidate -> Prop) c0 l :
  P c0 -> Forall P l -> P (hd c0 l).
Proof. intros H0 Hl. destruct Hl; [exact H0|assumption]. Qed.

End Session.

(** X12: port and session go together. After a call from a disconnected
    controller, a returned port means that the controller holds a session
    bound to that very port. And when every detected candidate has a
    non-empty path, the converse holds: without a returned port no
    session is held. *)
Theorem session_iff_port_returned (s : State) :
  _dc (self s) = None ->
  (forall cands, detect_candidates (world s) = Return cands ->
                 Forall (fun c => path c <> "") cands) ->
  let r := auto_connect_or_candidates s in
  (truthy (fst (fst r)) = true ->
   exists ident,
     _dc (self (snd r)) = Some {| dc_port := fst (fst r); dc_ident := ident |}) /\
  (truthy (fst (fst r)) = false ->
   fst (fst r) = PNone /\ _dc (self (snd r)) = None).
Proof.
  intros Hdc Hpaths r. unfold r.
  rewrite (auto_connect_disconnected s Hdc). cbv zeta.
  set (s0 := {| self := with_last_error None (self s); world := world s |}).
  set (a1 := attempt _ _ s0).
  destruct (truthy (fst a1)) eqn:E1.
  { cbn [fst snd]. rewrite E1. split; [|discriminate]. intros _.
    destruct (attempt_truthy _ _ _ E1) as [Hp [ident Hi]]. fold a1 in Hp, Hi.
    exists ident. now rewrite Hp at 1. }
  assert (D1 : _dc (self (snd a1)) = None).
  { unfold a1. destruct (truthy (opt_str (_explicit_port (self s)))) eqn:Ex.
    - apply attempt_falsy; [exact Ex|exact Hdc|exact E1].
    - exact Hdc. }
  set (a2 := attempt _ _ (snd a1)).
  destruct (truthy (fst a2)) eqn:E2.
  { cbn [fst snd]. rewrite E2. split; [|discriminate]. intros _.
    destruct (attempt_truthy _ _ _ E2) as [Hp [ident Hi]]. fold a2 in Hp, Hi.
    exists ident. now rewrite Hp at 1. }
  assert (D2 : _dc (self (snd a2)) = None).
  { unfold a2. destruct (truthy (_last_good_port (self s))) eqn:Ex.
    - apply attempt_falsy; [exact Ex|exact D1|exact E2].
    - exact D1. }
  assert (He : same_env (world s) (world (snd a2))).
  { eapply same_env_trans; [|apply attempt_same_env].
    apply (attempt_same_env _ _ s0). }
  rewrite connect_detected_eq, (detect_candidates_same_env _ _ He).
  destruct (detect_candidates (world s)) as [msg|[|c0 cands]] eqn:Ed.
  - cbn. split; [discriminate|]. intros _. split; [reflexivity|exact D2].
  - cbn. split; [discriminate|]. intros _. split; [reflexivity|exact D2].
  - assert (Hne := Hpaths _ eq_refl).
    assert (Hc0 : path c0 <> "") by now inversion Hne.
    assert (Hws : Forall (fun c => path c <> "") (working_subset (c0 :: cands))).
    { apply List.Forall_forall. intros c Hc.
      apply (proj1 (List.Forall_forall _ _) Hne).
      destruct (working_subset_prefers_wired_sub (c0 :: cands)) as [_ Hsub].
      apply list_elem_of_In. eapply elem_of_sublist; [|exact Hsub].
      now apply list_elem_of_In. }
    cbv zeta.
    set (a4 := attempt _ _ (snd a2)).
    destruct (truthy (fst a4)) eqn:E4.
    { cbn [fst snd]. rewrite E4. split; [|discriminate]. intros _.
      destruct (attempt_truthy _ _ _ E4) as [Hp [ident Hi]]. fold a4 in Hp, Hi.
      exists ident. now rewrite Hp at 1. }
    assert (D4 : _dc (self (snd a4)) = None).
    { apply attempt_falsy; [|exact D2|exact E4].
      cbn [truthy]. apply negb_true_iff, String.eqb_neq.
      now apply hd_paths. }
    set (pr := probe_candidates _ (snd a4)).
    set (a5 := attempt _ _ (snd pr)).
    destruct (truthy (fst a5)) eqn:E5.
    { cbn [fst snd]. rewrite E5. split; [|discriminate]. intros _.
      destruct (attempt_truthy _ _ _ E5) as [Hp [ident Hi]]. fold a5 in Hp, Hi.
      exists ident. now rewrite Hp at 1. }
    cbn [fst snd truthy]. split; [discriminate|]. intros _.
    split; [reflexivity|].
    apply attempt_falsy; [| |exact E5].
    + cbn [truthy]. apply negb_true_iff, String.eqb_neq.
      apply hd_paths; [exact Hc0|].
      eapply List.Forall_impl; [|apply probe_candidates_from].
      intros v (c & Hin & ->). cbn [path set_verified].
      apply (proj1 (List.Forall_forall _ _) Hws).
      apply list_elem_of_In. eapply elem_of_sublist; [|apply sublist_take].
      apply list_elem_of_In. exact Hin.
    + unfold pr. now rewrite probe_candidates_dc.
Qed.

Lemma session_iff_port_returned_witness :
  _dc (self (snd (auto_connect_or_candidates
                    (__init__ None
                       (Samples.linux_closed
                          (Return [Samples.port_s0; Samples.port_s1]))))))
  = None.
Proof.
  refine (proj2 (proj2 (session_iff_port_returned
           (__init__ None
              (Samples.linux_closed (Return [Samples.port_s0; Samples.port_s1])))
           _ _) _)).
  - reflexivity.
  - intros cands H. vm_compute in H. injection H as <-.
    repeat constructor; discriminate.
  - reflexivity.
Defined.

(** ** Effort of a resolution *)

Section Effort.

Lemma within_ret {A} (a : A) : within 0 0 (ret a).
Proof. intros s. cbn. lia. Qed.

Lemma within_bind {A B} a1 b1 a2 b2 (m : M A) (k : A -> M B) :
  within a1 b1 m -> (forall x, within a2 b2 (k x)) ->
  within (a1 + a2) (b1 + b2) (bind m k).
Proof.
  intros Hm Hk s. rewrite bind_eq.
  destruct (Hm s) as [H1 H2].
  destruct (Hk (fst (m s)) (snd (m s))) as [H3 H4]. lia.
Qed.

Lemma within_weaken {A} a b a' b' (m : M A) :
  a <= a' -> b <= b' -> within a b m -> within a' b' m.
Proof. intros Ha Hb Hm s. destruct (Hm s). lia. Qed.

Lemma within_try_connect port : within 1 0 (try_connect port).
Proof.
  intros s.
  destruct (device_open (world s) (length (opens (world s))) port) as [msg|ident] eqn:E.
  - rewrite (try_connect_raises _ _ _ E). cbn. rewrite length_app. cbn. lia.
  - rewrite (try_connect_opened _ _ _ E). cbn. rewrite length_app. cbn. lia.
Qed.

Lemma within_attempt b port : within 1 0 (attempt b port).
Proof.
  destruct b; [apply within_try_connect|].
  eapply within_weaken; [| |apply within_ret]; lia.
Qed.

Lemma within_probe_port port t : within 1 2 (_probe_port port t).
Proof.
  intros s. destruct (throttled s port) eqn:E.
  - rewrite (probe_skipped _ _ _ E). cbn. lia.
  - rewrite (probe_attempted _ _ _ E). cbn. rewrite length_app. cbn. lia.
Qed.

Lemma within_probe_candidates l :
  within (length l) (2 * length l) (probe_candidates l).
Proof.
  induction l as [|c r IH]; cbn [probe_candidates length].
  - apply within_ret.
  - eapply within_weaken;
      [| |apply (within_bind 1 2 (length r + 0) (2 * length r + 0))].
    + lia.
    + lia.
    + apply within_probe_port.
    + intros ok. apply within_bind; [exact IH|]. intros vs. apply within_ret.
Qed.

Lemma within_connect_detected : within 4 6 connect_detected.
Proof.
  intros s. rewrite connect_detected_eq.
  destruct (detect_candidates (world s)) as [msg|[|c0 cands]]; try (cbn; lia).
  cbv zeta.
  set (ws := working_subset (c0 :: cands)).
  set (cond := (length ws =? 1)%nat && (40 <=? score (hd c0 ws))%Z).
  set (a4 := attempt cond _ s).
  assert (H4 : length (opens (world (snd a4)))
               <= length (opens (world s)) + (if cond then 1 else 0) /\
               ticks (world (snd a4)) <= ticks (world s) + 0).
  { unfold a4. destruct cond; [apply within_try_connect|cbn; lia]. }
  assert (Ht : length (take 3 ws) <= if cond then 1 else 3).
  { rewrite length_take. unfold cond.
    destruct (Nat.eqb_spec (length ws) 1) as [->|]; cbn [andb]; [|lia].
    destruct (40 <=? score (hd c0 ws))%Z; lia. }
  destruct (truthy (fst a4)); [cbn [snd]; destruct cond; lia|].
  set (pr := probe_candidates _ (snd a4)).
  assert (Hp := within_probe_candidates (take 3 ws) (snd a4)).
  fold pr in Hp.
  set (a5 := attempt _ _ (snd pr)).
  assert (H5 := within_attempt
                  (length (fst pr) =? 1)%nat
                  (PStr (path (hd c0 (fst pr)))) (snd pr)).
  fold a5 in H5.
  destruct (truthy (fst a5)); cbn [snd]; destruct cond; lia.
Qed.

End Effort.

(** X13: a resolution is bounded. One call of
    [auto_connect_or_candidates] opens at most 6 ports (the explicit
    port, the last good port, then either the single confident candidate,
    its probe and its second attempt, or three probes and the verified
    candidate) and reads the clock at most 6 times, whatever the number
    of enumerated ports; none of it when a session is held. Opens are
    only added to the log. *)
Theorem resolution_effort_bounded (s : State) :
  let s' := snd (auto_connect_or_candidates s) in
  length (opens (world s')) <= length (opens (world s)) + 6 /\
  ticks (world s') <= ticks (world s) + 6 /\
  (exists new, opens (world s') = opens (world s) ++ new) /\
  (_dc (self s) <> None -> world s' = world s).
Proof.
  intros s'. unfold s'.
  split; [|split; [|split]].
  3: { apply (ev_opens _ _ (keeps_auto_connect s)). }
  3: { destruct (_dc (self s)) as [dc|] eqn:Hdc; [intros _|intros H; now destruct H].
       unfold auto_connect_or_candidates. rewrite !bind_eq. cbn.
       now rewrite Hdc. }
  all: destruct (_dc (self s)) as [dc|] eqn:Hdc.
  1,3: unfold auto_connect_or_candidates; rewrite !bind_eq; cbn;
       rewrite Hdc; cbn; lia.
  all: rewrite (auto_connect_disconnected s Hdc); cbv zeta;
    set (s0 := {| self := with_last_error None (self s); world := world s |});
    set (a1 := attempt _ _ s0);
    assert (H1 := within_attempt (truthy (opt_str (_explicit_port (self s))))
                    (opt_str (_explicit_port (self s))) s0);
    fold a1 in H1; cbn [world s0] in H1;
    (destruct (truthy (fst a1)); [cbn [snd]; lia|]);
    set (a2 := attempt _ _ (snd a1));
    assert (H2 := within_attempt (truthy (_last_good_port (self s)))
                    (_last_good_port (self s)) (snd a1));
    fold a2 in H2;
    (destruct (truthy (fst a2)); [cbn [snd]; lia|]);
    assert (H3 := within_connect_detected (snd a2)); lia.
Qed.

(** A resolution that needs all six opens: both known ports fail, three
    candidates of low score are probed, one answers and is connected. *)
Example six_opens_are_reached :
  length
    (opens
       (world
          (snd (auto_connect_or_candidates
                  {| self := {| _explicit_port := Some "/dev/ttyACM7";
                                _dc := None; _last_error := None;
                                _last_good_port := PStr "/dev/ttyACM8";
                                _probe_recent := ∅ |};
                     world := Samples.host "posix" "Linux"
                                Samples.third_open_succeeds Samples.slow_clock
                                (Return [Samples.port_s0; Samples.port_s1;
                                         Samples.port_bt;
                                         with_device "/dev/ttyS2" Samples.port_s0])
                  |})))) = 6.
Proof. reflexivity. Qed.

(** ** Persistence over the lifetime and beyond *)

Lemma try_connect_opens port s :
  opens (world (snd (try_connect port s))) = opens (world s) ++ [port].
Proof.
  destruct (device_open (world s) (length (opens (world s))) port) as [msg|ident] eqn:E.
  - now rewrite (try_connect_raises _ _ _ E).
  - now rewrite (try_connect_opened _ _ _ E).
Qed.

(** X14: the preference survives a restart. After a connect that
    succeeds and whose write goes through, a controller constructed anew
    on the same machine starts disconnected with that port as its last
    good port, and, when no explicit port is given, its first resolution
    opens that port before any other. *)
Theorem preference_survives_restart (s : State) (port : pyval)
    (ident : list (string * pyval)) (explicit : option string) :
  device_open (world s) (length (opens (world s))) port = Opened ident ->
  cache_write (world s) (length (fs_log (world s))) = WriteOk ->
  let s1 := snd (try_connect port s) in
  let s2 := __init__ explicit (world s1) in
  _last_good_port (self s2) = port /\
  _dc (self s2) = None /\
  _explicit_port (self s2) = explicit /\
  (truthy (opt_str explicit) = false -> truthy port = true ->
   exists rest,
     opens (world (snd (auto_connect_or_candidates s2)))
     = opens (world s1) ++ port :: rest).
Proof.
  intros Hopen Hw s1 s2.
  assert (Hlg : _last_good_port (self s2) = port).
  { unfold s2, s1. rewrite (try_connect_opened _ _ _ Hopen).
    cbn. rewrite Hw. cbn.
    destruct (String.eqb_spec "last_good_port" "last_good_port"); congruence. }
  split; [exact Hlg|]. split; [reflexivity|]. split; [reflexivity|].
  intros Hx Hp.
  rewrite (auto_connect_disconnected s2 eq_refl). cbv zeta.
  change (_explicit_port (self s2)) with explicit.
  rewrite Hx, Hlg, Hp. cbn [attempt ret fst snd truthy].
  set (s0 := {| self := with_last_error None (self s2); world := world s2 |}).
  assert (Ho : opens (world (snd (try_connect port s0)))
               = opens (world s1) ++ [port])
    by (rewrite try_connect_opens; reflexivity).
  destruct (truthy (fst (try_connect port s0))).
  - exists []. exact Ho.
  - destruct (ev_opens _ _ (keeps_connect_detected (snd (try_connect port s0))))
      as [new Hnew].
    exists new. rewrite Hnew, Ho, <- app_assoc. reflexivity.
Qed.

Lemma preference_survives_restart_witness :
  _last_good_port
    (self (__init__ None
             (world (snd (try_connect (PStr "/dev/ttyUSB0")
                            (__init__ None (Samples.linux (Return []))))))))
  = PStr "/dev/ttyUSB0".
Proof.
  refine (proj1 (preference_survives_restart
           (__init__ None (Samples.linux (Return [])))
           (PStr "/dev/ttyUSB0") (Samples.mesh_ident (PStr "/dev/ttyUSB0"))
           None _ _)); reflexivity.
Defined.



(** ** More on probing *)

(** X16: a probe touches only its own path. Whatever it does, the time
    recorded for every other path, the session, the last error and the
    preference file are as before; so probing one port never throttles
    the probe of another. *)
Theorem probe_touches_only_its_path (port q : string) (t : float) (s : State) :
  q <> port ->
  let s' := snd (_probe_port port t s) in
  _probe_recent (self s') !! q = _probe_recent (self s) !! q /\
  last_probe s' q = last_probe s q /\
  _dc (self s') = _dc (self s) /\
  _last_error (self s') = _last_error (self s) /\
  cache_file (world s') = cache_file (world s) /\
  fs_log (world s') = fs_log (world s).
Proof.
  intros Hq s'. unfold s', last_probe.
  destruct (throttled s port) eqn:E.
  - rewrite (probe_skipped _ _ _ E). cbn. repeat split.
  - rewrite (probe_attempted _ _ _ E). cbn.
    rewrite lookup_insert_ne by congruence. repeat split.
Qed.

Lemma probe_touches_only_its_path_witness :
  last_probe
    (snd (_probe_port "/dev/ttyS0" 4%float
            (__init__ None (Samples.linux (Return [])))))
    "/dev/ttyS1"
  = 0%float.
Proof.
  refine (eq_trans (proj1 (proj2 (probe_touches_only_its_path
            "/dev/ttyS0" "/dev/ttyS1" 4%float
            (__init__ None (Samples.linux (Return []))) _))) _).
  - discriminate.
  - reflexivity.
Defined.

(** X17: a path that was never probed counts as probed at time 0.0.
    While the monotonic clock reads less than 5 seconds, the probe of
    such a path is skipped: it returns [False] without opening the port,
    and the path stays without record. *)
Theorem unprobed_path_skipped_on_young_clock (port : string) (t : float)
    (s : State) :
  _probe_recent (self s) !! port = None ->
  probed_recently (clock_now s) 0%float = true ->
  let r := _probe_port port t s in
  fst r = false /\
  opens (world (snd r)) = opens (world s) /\
  _probe_recent (self (snd r)) !! port = None.
Proof.
  intros Hnone Hyoung r. unfold r.
  rewrite probe_skipped.
  - cbn. now repeat split.
  - unfold throttled, last_probe. now rewrite Hnone.
Qed.

Lemma unprobed_path_skipped_on_young_clock_witness :
  fst (_probe_port "/dev/ttyUSB0" 4%float
         (__init__ None
            (Samples.host "posix" "Linux"
               (fun _ p => Opened (Samples.mesh_ident p))
               Samples.young_clock (Return [Samples.port_usb]))))
  = false.
Proof.
  apply (unprobed_path_skipped_on_young_clock "/dev/ttyUSB0" 4%float
           (__init__ None
              (Samples.host "posix" "Linux"
                 (fun _ p => Opened (Samples.mesh_ident p))
                 Samples.young_clock (Return [Samples.port_usb])))).
  - reflexivity.
  - reflexivity.
Defined.

(** ** Snapshots *)

(** X18: a closed controller. [close] touches nothing but the session
    and is idempotent; after it, [fetch_device_model] and
    [refresh_channels] raise the "Not connected" error, whatever the
    session could deliver, and change nothing. *)
Theorem closed_controller_raises (DeviceModel MeshChannel : Type)
    (MeshChannels : DeviceModel -> list MeshChannel)
    (snapshot : World -> DeviceController -> result DeviceModel)
    (close_after_fetch : bool) (s : State) :
  let s1 := snd (close s) in
  _dc (self s1) = None /\
  world s1 = world s /\
  snd (close s1) = s1 /\
  fetch_device_model DeviceModel snapshot close_after_fetch s1
    = (Raise not_connected, s1) /\
  refresh_channels DeviceModel MeshChannel MeshChannels snapshot s1
    = (Raise not_connected, s1).
Proof.
  intros s1. unfold s1, fetch_device_model, refresh_channels.
  rewrite !bind_eq. cbn. repeat split.
Qed.

(** X19: fetching from a held session. When the snapshot is delivered,
    [fetch_device_model] returns it; with [close_after_fetch] the session
    is dropped afterwards and the next fetch raises "Not connected",
    without it the state is unchanged and [refresh_channels] returns the
    channels of that snapshot. When the snapshot raises, the error is
    passed on and the session is kept even with [close_after_fetch]. *)
Theorem fetch_from_session (DeviceModel MeshChannel : Type)
    (MeshChannels : DeviceModel -> list MeshChannel)
    (snapshot : World -> DeviceController -> result DeviceModel)
    (s : State) (dc : DeviceController) :
  _dc (self s) = Some dc ->
  match snapshot (world s) dc with
  | Return model =>
      fst (fetch_device_model DeviceModel snapshot true s) = Return model /\
      _dc (self (snd (fetch_device_model DeviceModel snapshot true s))) = None /\
      world (snd (fetch_device_model DeviceModel snapshot true s)) = world s /\
      fst (fetch_device_model DeviceModel snapshot true
             (snd (fetch_device_model DeviceModel snapshot true s)))
        = Raise not_connected /\
      fetch_device_model DeviceModel snapshot false s = (Return model, s) /\
      refresh_channels DeviceModel MeshChannel MeshChannels snapshot s
        = (Return (MeshChannels model), s)
  | Raise msg =>
      fetch_device_model DeviceModel snapshot true s = (Raise msg, s) /\
      fetch_device_model DeviceModel snapshot false s = (Raise msg, s) /\
      refresh_channels DeviceModel MeshChannel MeshChannels snapshot s
        = (Raise msg, s)
  end.
Proof.
  intros Hdc. unfold fetch_device_model, refresh_channels.
  rewrite !bind_eq. cbn [get fst snd]. rewrite Hdc.
  destruct (snapshot (world s) dc) as [msg|model] eqn:E.
  - cbn. now destruct s.
  - rewrite ?bind_eq. cbn. rewrite ?bind_eq. cbn.
    repeat split; now destruct s.
Qed.

Lemma fetch_from_session_witness :
  fst (fetch_device_model (list pyval)
         (fun _ dc => Return [dict_get (identity dc) "hwModel"]) true
         (snd (auto_connect_or_candidates
                 (__init__ None (Samples.linux (Return [Samples.port_usb]))))))
  = Return [PStr "TBEAM"].
Proof.
  refine (proj1 (fetch_from_session (list pyval) pyval (fun m => m)
           (fun _ dc => Return [dict_get (identity dc) "hwModel"])
           (snd (auto_connect_or_candidates
                   (__init__ None (Samples.linux (Return [Samples.port_usb])))))
           {| dc_port := PStr "/dev/ttyUSB0";
              dc_ident := Samples.mesh_ident (PStr "/dev/ttyUSB0") |} _)).
  reflexivity.
Defined.

(** ** The port picker dialog *)

Section Dialog.

Import PortPickerDialog.

Lemma py_index_in_range {A} (l : list A) (i : Z) :
  (0 <= i < Z.of_nat (length l))%Z ->
  py_index l i = nth_error l (Z.to_nat i) /\
  exists x, nth_error l (Z.to_nat i) = Some x.
Proof.
  intros H. unfold py_index.
  replace (0 <=? i)%Z with true by (symmetry; apply Z.leb_le; lia).
  replace (i <? Z.of_nat (length l))%Z with true by (symmetry; apply Z.ltb_lt; lia).
  split; [reflexivity|].
  destruct (nth_error l (Z.to_nat i)) eqn:E; [eauto|].
  apply nth_error_None in E. lia.
Qed.

Lemma py_index_empty {A} (i : Z) : py_index (@nil A) i = None.
Proof.
  unfold py_index. cbn [length]. change (Z.of_nat 0) with 0%Z.
  change (- 0)%Z with 0%Z.
  destruct ((0 <=? i)%Z && (i <? 0)%Z) eqn:E; [|reflexivity].
  apply andb_true_iff in E as [E1 E2].
  apply Z.leb_le in E1. apply Z.ltb_lt in E2. lia.
Qed.

Lemma index_of_path_lt sel l i :
  index_of_path sel l = Some i -> i < length l.
Proof.
  revert i. induction l as [|c r IH]; intros i; cbn; [discriminate|].
  destruct (String.eqb (path c) sel); [intros [= <-]; lia|].
  destruct (index_of_path sel r) as [j|]; [|discriminate].
  intros [= <-]. specialize (IH j eq_refl). lia.
Qed.

Lemma index_of_path_nodup l i c :
  NoDup (map path l) -> nth_error l i = Some c ->
  index_of_path (path c) l = Some i.
Proof.
  revert i. induction l as [|d r IH]; intros i Hnd Hi; [now destruct i|].
  apply NoDup_cons in Hnd as [Hd Hr]. cbn [index_of_path].
  destruct i as [|i]; cbn in Hi.
  - injection Hi as ->. now rewrite String.eqb_refl.
  - destruct (String.eqb_spec (path d) (path c)) as [E|_].
    + destruct Hd. rewrite E. apply list_elem_of_In, in_map.
      now apply nth_error_In in Hi.
    + now rewrite (IH i Hr Hi).
Qed.

Lemma init_selection_valid c di : selection_valid (__init__ c di).
Proof.
  unfold selection_valid, __init__.
  cbn [PortPickerDialog._choice_var PortPickerDialog._candidates].
  destruct (default [] c) as [|x l].
  - split; [lia|]. right. split; [reflexivity|]. cbn [length]. lia.
  - split; [lia|]. left. cbn [length]. lia.
Qed.

Lemma refresh_selection_valid r d :
  selection_valid d -> selection_valid (_on_refresh r d).
Proof.
  intros Hd. destruct r as [msg|o]; [exact Hd|].
  unfold selection_valid, _on_refresh.
  cbn [PortPickerDialog._choice_var PortPickerDialog._candidates].
  destruct (default [] o) as [|x l] eqn:E.
  - rewrite py_index_empty. cbn [truthy String.eqb negb].
    split; [lia|now right].
  - set (fresh := x :: l).
    assert (Hpos : (0 < Z.of_nat (length fresh))%Z) by (cbn [fresh length]; lia).
    destruct (truthy _); [|split; [lia|left; lia]].
    destruct (index_of_path _ fresh) as [i|] eqn:Ei; [|split; [lia|left; lia]].
    apply index_of_path_lt in Ei. split; [lia|left; lia].
Qed.

Lemma refreshed_selection_valid c di rs :
  selection_valid (refreshed_dialog c di rs).
Proof.
  unfold refreshed_dialog.
  assert (H := init_selection_valid c di).
  revert H. generalize (__init__ c di).
  induction rs as [|r rs IH]; intros d Hd; cbn; [exact Hd|].
  apply IH. now apply refresh_selection_valid.
Qed.

End Dialog.

(** X20: the selection the dialog opens with. Whatever default index is
    passed, the selected index is clamped into the list: it is the
    default index when that is a valid position, 0 when it is negative
    or the list is empty (also when [None] is passed for the list), and
    the last position when it is too large. *)
Theorem dialog_initial_selection (candidates : option (list candidate))
    (default_index : Z) :
  let d := PortPickerDialog.__init__ candidates default_index in
  let n := Z.of_nat (length (default [] candidates)) in
  PortPickerDialog._candidates d = default [] candidates /\
  selection_valid d /\
  ((0 <= default_index < n)%Z ->
   PortPickerDialog._choice_var d = default_index) /\
  ((default_index < 0)%Z -> PortPickerDialog._choice_var d = 0%Z) /\
  ((n <= default_index)%Z ->
   PortPickerDialog._choice_var d = Z.max 0 (n - 1)) /\
  PortPickerDialog.dlg_result d = None.
Proof.
  intros d n. split; [reflexivity|]. split; [apply init_selection_valid|].
  unfold d, n, PortPickerDialog.__init__. cbn. repeat split; lia.
Qed.

(** X21: the selection stays valid. After the dialog is opened and
    refreshed any number of times, whatever the refreshes return or
    raise, the selected index points into the list unless the list is
    empty. So [_on_connect] meets the [IndexError] only on an empty
    list, where it reports it and starts nothing; otherwise it hands the
    path of the selected entry to the worker, or asks to select a port
    when that path is empty. *)
Theorem dialog_selection_stays_valid (candidates : option (list candidate))
    (default_index : Z) (rs : list (result (option (list candidate)))) :
  let d := refreshed_dialog candidates default_index rs in
  selection_valid d /\
  (PortPickerDialog._candidates d = [] ->
   snd (PortPickerDialog._on_connect d) = None /\
   PortPickerDialog._status (fst (PortPickerDialog._on_connect d))
     = "list index out of range") /\
  (PortPickerDialog._candidates d <> [] ->
   exists cand,
     nth_error (PortPickerDialog._candidates d)
               (Z.to_nat (PortPickerDialog._choice_var d)) = Some cand /\
     snd (PortPickerDialog._on_connect d)
       = (if String.eqb (path cand) "" then None else Some (path cand)) /\
     (path cand = "" ->
      PortPickerDialog._status (fst (PortPickerDialog._on_connect d))
        = "Select a port.")).
Proof.
  intros d. assert (Hv := refreshed_selection_valid candidates default_index rs).
  fold d in Hv. split; [exact Hv|]. split.
  - intros He. unfold PortPickerDialog._on_connect.
    rewrite He, py_index_empty. now split.
  - intros Hne. destruct Hv as [H0 [Hlt|[He _]]]; [|now destruct Hne].
    destruct (py_index_in_range (PortPickerDialog._candidates d)
                (PortPickerDialog._choice_var d) (conj H0 Hlt))
      as [Hpy [cand Hc]].
    exists cand. split; [exact Hc|].
    unfold PortPickerDialog._on_connect. rewrite Hpy, Hc. cbn [truthy].
    destruct (String.eqb_spec (path cand) ""); cbn [negb snd fst].
    + split; [reflexivity|]. intros _. reflexivity.
    + split; [reflexivity|]. intros E. now destruct n.
Qed.

(** X22: a refresh keeps the selected position, not the selected port.
    The fresh list is stored before the selected path is read, so the
    path looked for is the one found at the old index in the fresh list.
    When the fresh list has distinct paths and a non-empty path at the
    old index, the selection is that same index, whichever port had
    been selected in the old list. *)
Theorem refresh_keeps_position (fresh : list candidate) (c : candidate)
    (d : PortPickerDialog.dialog) :
  NoDup (map path fresh) ->
  (0 <= PortPickerDialog._choice_var d)%Z ->
  nth_error fresh (Z.to_nat (PortPickerDialog._choice_var d)) = Some c ->
  path c <> "" ->
  let d' := PortPickerDialog._on_refresh (Return (Some fresh)) d in
  PortPickerDialog._candidates d' = fresh /\
  PortPickerDialog._choice_var d' = PortPickerDialog._choice_var d /\
  py_index (PortPickerDialog._candidates d') (PortPickerDialog._choice_var d')
    = Some c.
Proof.
  intros Hnd H0 Hc Hp d'.
  assert (Hlt : (PortPickerDialog._choice_var d < Z.of_nat (length fresh))%Z).
  { assert (H : Z.to_nat (PortPickerDialog._choice_var d) < length fresh)
      by (apply nth_error_Some; congruence).
    lia. }
  destruct (py_index_in_range fresh _ (conj H0 Hlt)) as [Hpy _].
  assert (Hch : PortPickerDialog._choice_var d' = PortPickerDialog._choice_var d).
  { unfold d', PortPickerDialog._on_refresh. cbn.
    rewrite Hpy, Hc.
    replace (String.eqb (path c) "") with false
      by (symmetry; now apply String.eqb_neq).
    cbn [negb]. rewrite (index_of_path_nodup _ _ _ Hnd Hc). lia. }
  split; [reflexivity|]. split; [exact Hch|].
  rewrite Hch. change (PortPickerDialog._candidates d') with fresh.
  now rewrite Hpy.
Qed.

Lemma refresh_keeps_position_witness :
  option_map path
    (py_index
       (PortPickerDialog._candidates
          (PortPickerDialog._on_refresh
             (Return (Some [Samples.parsed "posix" Samples.port_usb;
                            Samples.parsed "posix" Samples.port_s0;
                            Samples.parsed "posix" Samples.port_s1]))
             (PortPickerDialog.__init__
                (Some [Samples.parsed "posix" Samples.port_s0;
                       Samples.parsed "posix" Samples.port_s1]) 1)))
       (PortPickerDialog._choice_var
          (PortPickerDialog._on_refresh
             (Return (Some [Samples.parsed "posix" Samples.port_usb;
                            Samples.parsed "posix" Samples.port_s0;
                            Samples.parsed "posix" Samples.port_s1]))
             (PortPickerDialog.__init__
                (Some [Samples.parsed "posix" Samples.port_s0;
                       Samples.parsed "posix" Samples.port_s1]) 1))))
  = Some "/dev/ttyS0".
Proof.
  rewrite (proj2 (proj2 (refresh_keeps_position
             [Samples.parsed "posix" Samples.port_usb;
              Samples.parsed "posix" Samples.port_s0;
              Samples.parsed "posix" Samples.port_s1]
             (Samples.parsed "posix" Samples.port_s0)
             (PortPickerDialog.__init__
                (Some [Samples.parsed "posix" Samples.port_s0;
                       Samples.parsed "posix" Samples.port_s1]) 1)
             ltac:(apply (bool_decide_unpack _); vm_compute; reflexivity)
             ltac:(vm_compute; discriminate)
             ltac:(reflexivity)
             ltac:(vm_compute; discriminate)))).
  reflexivity.
Defined.

(** ** The confidence threshold *)

Lemma final_score_parts (os sys : string) (c : candidate) :
  score (platform_adjust os sys c) =
  (score c
   + (if String.eqb (lower sys) "darwin"
      then (if startswith (path c) "/dev/tty." then 5 else 0)
           + (if startswith (path c) "/dev/cu." then -2 else 0)
      else 0)
   + (if String.eqb os "nt" then if is_bluetooth c then -25 else 0 else 0))%Z.
Proof.
  unfold platform_adjust, adjust_darwin, adjust_nt.
  destruct (String.eqb (lower sys) "darwin"), (String.eqb os "nt");
    cbn [path set_score score is_bluetooth];
    repeat (case_match; cbn [path set_score score is_bluetooth] in * ); lia.
Qed.

Lemma tty_cu_exclusive dev :
  startswith dev "/dev/tty." = true -> startswith dev "/dev/cu." = false.
Proof.
  unfold startswith. intros H.
  destruct (String.prefix "/dev/cu." dev) eqn:E; [|reflexivity].
  destruct (prefix_comparable _ _ _ H E) as [F|F]; discriminate F.
Qed.

(** What the score of a parsed port says after both platform passes. *)
Lemma threshold_after_passes (os sys : string) (p : ListPortInfo)
    (c : candidate) :
  parse_port os p = Some c ->
  let final := score (platform_adjust os sys c) in
  (-72 <= final <= 85)%Z /\
  ((40 <= final)%Z ->
   p_vid p <> None /\ p_pid p <> None /\
   (String.eqb os "nt" = true -> is_bluetooth c = false)).
Proof.
  intros H final. unfold final. rewrite final_score_parts.
  unfold parse_port in H.
  destruct (any_bluetooth _) as [b|]; [|discriminate].
  destruct (_score_port _ _ _ _ _ _ _ _) as [sc|] eqn:Es; [|discriminate].
  destruct (py_join " | " _); [|discriminate].
  injection H as <-. cbn [score path is_bluetooth].
  unfold _score_port in Es.
  destruct (py_join " " _); [|discriminate].
  assert (Hx := tty_prefixes_exclusive (device p)).
  assert (Hy := tty_cu_exclusive (device p)).
  destruct (startswith (device p) "/dev/ttyUSB" || startswith (device p) "/dev/ttyACM");
    destruct (startswith (device p) "/dev/tty.");
    try (specialize (Hx eq_refl); discriminate Hx);
    destruct (startswith (device p) "/dev/cu.");
    try (specialize (Hy eq_refl); discriminate Hy);
    clear Hx Hy;
    destruct (p_vid p) as [v|], (p_pid p) as [q|];
    cbn [not_none andb vid_known] in Es;
    destruct (existsb _ keywords);
    injection Es as <-;
    repeat case_match; split; try lia;
    intros Hge; repeat split; try discriminate; try lia;
    intros _; try reflexivity; lia.
Qed.

Lemma parse_port_ids os p c :
  parse_port os p = Some c -> vid c = p_vid p /\ pid c = p_pid p.
Proof.
  unfold parse_port.
  destruct (any_bluetooth _) as [b|]; [|discriminate].
  destruct (_score_port _ _ _ _ _ _ _ _) as [sc|]; [|discriminate].
  destruct (py_join " | " _); [|discriminate].
  intros [= <-]. split; reflexivity.
Qed.

(** X23: what a final score says. The score of an entry of the list that
    [detect_candidates] returns lies between -72 and 85. It reaches the
    threshold of 40, from which a single candidate is connected without
    probing, only if the entry carries both a vendor and a product id;
    and on Windows a Bluetooth entry never reaches it. The ids of an
    entry are those its port reports. *)
Theorem confidence_needs_usb_ids (w : World) (out : list candidate)
    (c : candidate) :
  detect_candidates w = Return out -> In c out ->
  (-72 <= score c <= 85)%Z /\
  ((40 <= score c)%Z ->
   vid c <> None /\ pid c <> None /\
   (String.eqb (os_name w) "nt" = true -> is_bluetooth c = false)) /\
  (exists ports p,
     comports w = Return ports /\ In p ports /\
     scored_candidates (os_name w) (platform_system w) [p] = [c] /\
     path c = device p /\ vid c = p_vid p /\ pid c = p_pid p).
Proof.
  intros Hd Hc.
  destruct (detect_candidates_entry w out c Hd Hc)
    as (ports & p & c0 & Hports & Hin & H0 & ->).
  destruct (platform_adjust_fields (os_name w) (platform_system w) c0)
    as (Eb & Ev & Ep).
  destruct (parse_port_ids _ _ _ H0) as [Hv Hp].
  destruct (threshold_after_passes (os_name w) (platform_system w) p c0 H0)
    as [Hrange Hth].
  rewrite Eb, Ev, Ep, Hv, Hp.
  split; [exact Hrange|]. split; [exact Hth|].
  exists ports, p. split; [exact Hports|]. split; [exact Hin|].
  split; [apply scored_single; eauto|].
  rewrite platform_adjust_path.
  split; [|split; reflexivity].
  unfold parse_port in H0.
  destruct (any_bluetooth _) as [b|]; [|discriminate].
  destruct (_score_port _ _ _ _ _ _ _ _) as [sc|]; [|discriminate].
  destruct (py_join " | " _); [|discriminate].
  injection H0 as <-. reflexivity.
Qed.

Lemma confidence_needs_usb_ids_witness :
  let c := Samples.listed "nt" "Windows" Samples.port_com7_bt in
  vid c <> None /\ score c = 20%Z /\
  ((40 <= score c)%Z -> is_bluetooth c = false).
Proof.
  intros c.
  destruct (confidence_needs_usb_ids
              (Samples.host "nt" "Windows"
                 (fun _ p => Opened (Samples.mesh_ident p)) Samples.slow_clock
                 (Return [Samples.port_com3; Samples.port_com7_bt]))
              [Samples.listed "nt" "Windows" Samples.port_com3; c] c
              eq_refl (or_intror (or_introl eq_refl)))
    as (_ & Hth & _).
  split; [discriminate|]. split; [reflexivity|].
  intros H. exact (proj2 (proj2 (Hth H)) eq_refl).
Defined.

(** ** The probe-verified candidate *)

(** X24: step 5. No port is known beforehand, the enumeration gives
    candidates among which no single confident one stands out, and of
    the (at most three) top candidates of the working subset exactly one
    answers its probe. If that port then opens, the call returns it with
    no candidates and holds the session; the port is one of the probed
    ones. *)
Theorem verified_candidate_connects (s : State) (cands : list candidate)
    (v : candidate) (ident : list (string * pyval)) :
  _dc (self s) = None ->
  truthy (opt_str (_explicit_port (self s))) = false ->
  truthy (_last_good_port (self s)) = false ->
  detect_candidates (world s) = Return cands ->
  (forall c, working_subset cands = [c] -> (score c < 40)%Z) ->
  let s0 := {| self := with_last_error None (self s); world := world s |} in
  let pr := probe_candidates (take 3 (working_subset cands)) s0 in
  fst pr = [v] ->
  path v <> "" ->
  device_open (world s) (length (opens (world (snd pr)))) (PStr (path v))
    = Opened ident ->
  let r := auto_connect_or_candidates s in
  fst r = (PStr (path v), []) /\
  _dc (self (snd r)) = Some {| dc_port := PStr (path v); dc_ident := ident |} /\
  In (path v) (map path (take 3 (working_subset cands))).
Proof.
  intros Hdc Hx Hlg Hdet Hlow s0 pr Hv Hp Hopen r. unfold r.
  rewrite (auto_connect_disconnected s Hdc). cbv zeta.
  rewrite Hx, Hlg. cbn [attempt ret fst snd truthy].
  rewrite connect_detected_eq. cbn [world]. rewrite Hdet.
  destruct cands as [|c0 rest].
  { unfold pr in Hv. discriminate Hv. }
  cbv zeta.
  assert (Hcond : (length (working_subset (c0 :: rest)) =? 1)%nat
                  && (40 <=? score (hd c0 (working_subset (c0 :: rest))))%Z
                  = false).
  { destruct (working_subset (c0 :: rest)) as [|c [|c' l]] eqn:Ew; try reflexivity.
    cbn. apply Z.leb_gt. now apply Hlow. }
  rewrite Hcond. cbn [attempt ret fst snd truthy].
  fold s0. fold pr. rewrite Hv. cbn [length Nat.eqb hd attempt].
  assert (Hopen' : device_open (world (snd pr)) (length (opens (world (snd pr))))
                     (PStr (path v)) = Opened ident).
  { destruct (ev_env _ _ (keeps_probe_candidates
                            (take 3 (working_subset (c0 :: rest))) s0))
      as (_ & _ & _ & Hd & _).
    fold pr in Hd. rewrite Hd. exact Hopen. }
  rewrite (try_connect_opened _ _ _ Hopen'). cbn [fst snd truthy].
  replace (String.eqb (path v) "") with false
    by (symmetry; now apply String.eqb_neq).
  cbn. split; [reflexivity|]. split; [reflexivity|].
  assert (Hf := probe_candidates_from (take 3 (working_subset (c0 :: rest))) s0).
  fold pr in Hf. rewrite Hv in Hf.
  apply Forall_cons in Hf as [(c & Hin & ->) _].
  cbn [path set_verified]. now apply in_map.
Qed.

Lemma verified_candidate_connects_witness :
  fst (auto_connect_or_candidates
         (__init__ None
            (Samples.host "posix" "Linux" Samples.first_and_third_open
               Samples.slow_clock
               (Return [Samples.port_s0; Samples.port_s1; Samples.port_bt]))))
  = (PStr "/dev/ttyS0", []).
Proof.
  refine (proj1 (verified_candidate_connects
           (__init__ None
              (Samples.host "posix" "Linux" Samples.first_and_third_open
                 Samples.slow_clock
                 (Return [Samples.port_s0; Samples.port_s1; Samples.port_bt])))
           _ (set_verified (Samples.parsed "posix" Samples.port_s0))
           (Samples.mesh_ident (PStr "/dev/ttyS0")) _ _ _ _ _ _ _ _)).
  - reflexivity.
  - reflexivity.
  - reflexivity.
  - reflexivity.
  - intros c H. vm_compute in H. discriminate H.
  - reflexivity.
  - vm_compute. discriminate.
  - reflexivity.
Defined.

(** ** Which ports a resolution opens *)

Section Opens.








End Opens.


